(** * Cluster MSI certificate and identity reconciliation (pkg/cluster/clustermsi.go)

    A shallow embedding of [ensureClusterMsiCertificate], [clusterMsiSecretName],
    [clusterIdentityIDs] and [getSingleExplicitIdentity], with the collaborators
    the manager talks to (key vault store, MSI dataplane, document database,
    clock) kept as explicit handlers over a world state that records every call. *)

From stdpp Require Import gmap strings list fin_maps.
From Stdlib Require Import ZArith Lia Ascii String.

Local Open Scope string_scope.
Local Open Scope Z_scope.

(** ** Go values *)

(** A Go [error] value.  [errors.New] and [fmt.Errorf] both build a value whose
    only content is its message; the package-level sentinel is a value of its
    own (it is compared by identity); [*azcore.ResponseError] carries the HTTP
    status the code inspects; [ForeignError] is every other dynamic type a
    collaborator may hand back. *)
Inductive error : Type :=
| errClusterMsiNotPresentInResponse
| errors_New (msg : string)
| fmt_Errorf (msg : string)
| ResponseError (StatusCode : Z) (detail : string)
| ForeignError (kind : string) (detail : string).

#[global] Instance error_eq_dec : EqDecision error.
Proof. solve_decision. Defined.

(** The [Error()] method: the message of an error value. *)
Definition Error (e : error) : string :=
  match e with
  | errClusterMsiNotPresentInResponse =>
      "cluster msi not present in msi credentials response"
  | errors_New msg => msg
  | fmt_Errorf msg => msg
  | ResponseError _ detail => detail
  | ForeignError _ detail => detail
  end.

Module http.
Definition StatusNotFound : Z := 404.
End http.

Definition mockMsiCertValidityDays : Z := 90.

(** Fields of a struct that this file never reads or writes, by name and
    encoded value.  They are carried along so that frame properties can speak
    about them. *)
Abbreviation OtherFields := (list (string * string)).

(** ** pkg/api: the cluster document *)
Module api.

Record UserAssignedIdentity : Type := {
  ClientID : string;
  PrincipalID : string
}.

Record ManagedServiceIdentity : Type := {
  IdentityURL : string;
  TenantID : string;
  UserAssignedIdentities : gmap string UserAssignedIdentity;
  identity_other : OtherFields
}.

Record OpenShiftCluster : Type := {
  Identity : ManagedServiceIdentity;
  cluster_other : OtherFields
}.

Record OpenShiftClusterDocument : Type := {
  ID : string;
  Key : string;
  doc_OpenShiftCluster : OpenShiftCluster;
  doc_other : OtherFields
}.

(** [doc.OpenShiftCluster.Identity.UserAssignedIdentities] read ... *)
Definition identities (d : OpenShiftClusterDocument)
  : gmap string UserAssignedIdentity :=
  UserAssignedIdentities (Identity (doc_OpenShiftCluster d)).

(** ... and assigned through the pointer chain: only the map changes. *)
Definition set_identities (m : gmap string UserAssignedIdentity)
    (d : OpenShiftClusterDocument) : OpenShiftClusterDocument :=
  let oc := doc_OpenShiftCluster d in
  let i := Identity oc in
  {| ID := ID d;
     Key := Key d;
     doc_OpenShiftCluster :=
       {| Identity :=
            {| IdentityURL := IdentityURL i;
               TenantID := TenantID i;
               UserAssignedIdentities := m;
               identity_other := identity_other i |};
          cluster_other := cluster_other oc |};
     doc_other := doc_other d |}.

End api.

(** ** azcore/arm: a parsed resource identifier *)
Module arm.
Record ResourceID : Type := {
  Name : string;
  String : string        (* the [String()] method *)
}.
End arm.

(** ** msi-dataplane: swagger and dataplane types *)
Module swagger.

Record NestedCredentialsObject : Type := {
  ClientID : option string;     (* *string *)
  ObjectID : option string;     (* *string *)
  NotAfter : option string;     (* *string *)
  nested_other : OtherFields
}.

(** [ExplicitIdentities] is a slice of pointers: [None] is the nil slice,
    [Some []] an empty one, and an element [None] a nil pointer. *)
Record CredentialsObject : Type := {
  ExplicitIdentities : option (list (option NestedCredentialsObject));
  credentials_other : OtherFields
}.

End swagger.

Module dataplane.

Record UserAssignedMSIRequest : Type := {
  IdentityURL : string;
  ResourceIDs : list string;
  TenantID : string
}.

(** [dataplane.UserAssignedIdentities] embeds the swagger object. *)
Record UserAssignedIdentities : Type := {
  CredentialsObject : swagger.CredentialsObject;
  cloud : string
}.

Definition ExplicitIdentities (o : UserAssignedIdentities) :=
  swagger.ExplicitIdentities (CredentialsObject o).

End dataplane.

Module store.
Record SecretProperties (Time : Type) : Type := {
  Enabled : bool;
  Expires : Time;
  Name : string;
  NotBefore : Time
}.
Arguments Enabled {Time} _.
Arguments Expires {Time} _.
Arguments Name {Time} _.
Arguments NotBefore {Time} _.
End store.

Module env.
Inductive Feature : Type :=
| FeatureUseMockMsiRp
| FeatureOther (n : Z).

(** The part of [env.Interface] this file calls. *)
Record Interface : Type := {
  FeatureIsSet : Feature → bool
}.
End env.

(** ** getSingleExplicitIdentity *)

Definition getSingleExplicitIdentity (msiCredObj : dataplane.UserAssignedIdentities)
  : error + swagger.NestedCredentialsObject :=
  match dataplane.ExplicitIdentities msiCredObj with
  | None => inl errClusterMsiNotPresentInResponse
  | Some [] => inl errClusterMsiNotPresentInResponse
  | Some (None :: _) => inl errClusterMsiNotPresentInResponse
  | Some (Some identity :: _) => inr identity
  end.

(** ** The database behind [m.db] *)

(** Modelled from the spec: [PatchWithLease] lives in the repository's database
    package, whose sources are not part of this development.  The store below
    and [Database.PatchWithLease] follow the five steps the specification gives
    for the optimistic document patcher: acquire an exclusive ownership token
    for the key, read the current version, apply the mutation to an in-memory
    copy (an error aborts with no write and is returned verbatim), commit
    conditioned on the version read, and release the token on every exit. *)
Module Database.

Record Versioned : Type := {
  version : Z;
  content : api.OpenShiftClusterDocument
}.

Record t : Type := {
  documents : gmap string Versioned;
  leased : gset string           (* keys whose ownership token is held *)
}.

Definition errLeaseHeld : error :=
  ForeignError "LeaseConflict" "ownership token held by another writer".
Definition errNoDocument : error :=
  ForeignError "NotFound" "no document under this key".
Definition errPreconditionFailed : error :=
  ForeignError "LeaseConflict" "document version changed before commit".

Definition acquire (key : string) (d : t) : t :=
  {| documents := documents d; leased := {[key]} ∪ leased d |}.

Definition release (key : string) (d : t) : t :=
  {| documents := documents d; leased := leased d ∖ {[key]} |}.

Definition commit (key : string) (v : Versioned) (d : t) : t :=
  {| documents := <[key := v]> (documents d); leased := leased d |}.

Section Patch.
(** What other writers do to the store between this writer's read and its
    conditional commit. *)
Variable interim : t → t.

Definition PatchWithLease (key : string)
    (mutate : api.OpenShiftClusterDocument
              → api.OpenShiftClusterDocument * option error)
    (d : t) : (option api.OpenShiftClusterDocument * option error) * t :=
  if decide (key ∈ leased d) then ((None, Some errLeaseHeld), d)
  else
    let d1 := acquire key d in
    match documents d1 !! key with
    | None => ((None, Some errNoDocument), release key d1)
    | Some read =>
        match mutate (content read) with
        | (_, Some err) => ((None, Some err), release key d1)
        | (copy, None) =>
            let d2 := interim d1 in
            match documents d2 !! key with
            | Some current =>
                if decide (version current = version read) then
                  let d3 := commit key {| version := version read + 1;
                                          content := copy |} d2 in
                  ((Some copy, None), release key d3)
                else ((None, Some errPreconditionFailed), release key d2)
            | None => ((None, Some errPreconditionFailed), release key d2)
            end
        end
    end.
End Patch.

End Database.


(** ** The manager and its collaborators *)

(** [m.doc] is a pointer: it is nil ([None]) once a failed patch has been
    assigned to it, and dereferencing it then panics. *)
Record manager : Type := {
  doc : option api.OpenShiftClusterDocument;
  env : env.Interface
}.

Definition set_doc (d : option api.OpenShiftClusterDocument) (m : manager) : manager :=
  {| doc := d; env := env m |}.

(** How a call ends: it returns a value, or a nil dereference panics. *)
Inductive outcome (A : Type) : Type :=
| Returned (a : A)
| Panicked.
Arguments Returned {A} a.
Arguments Panicked {A}.

(** A function that can give up with an [error]: [error] itself (nil is
    [None]) or a pair of a value and an error. *)
Class Fallible (R : Type) := failWith : error → R.
#[global] Instance fallible_error : Fallible (option error) := Some.
#[global] Instance fallible_pair {A} : Fallible (error + A) := inl.

(** *** Go's standard library and runtime *)

(** The order in which [range] visits a map is chosen by the runtime; all the
    language promises is that every entry is visited once. *)
Class GoRuntime : Type := {
  EqualFold : string → string → bool;              (* strings.EqualFold *)
  Time : Type;                                      (* time.Time *)
  AddDate : Time → Z → Z → Z → Time;                (* t.AddDate(years, months, days) *)
  Parse : string → string → error + Time;           (* time.Parse(layout, value) *)
  range_order :
    gmap string api.UserAssignedIdentity → list (string * api.UserAssignedIdentity);
  range_order_perm : ∀ m, range_order m ≡ₚ map_to_list m
}.

(** *** Methods of [api.OpenShiftCluster] defined outside this file *)
Class ApiMethods : Type := {
  ClusterMsiResourceId : api.OpenShiftCluster → error + arm.ResourceID;
  UsesWorkloadIdentity : api.OpenShiftCluster → bool
}.

(** *** The services behind the manager's interfaces

    [Remote] is the state of everything outside the process: the key vault,
    the identity service and the clock.  Each handler says what one call
    returns and how it leaves that state.  [interim] is what other writers do
    to the database between a patch's read and its commit. *)
Class Services `{GoRuntime} : Type := {
  Remote : Type;
  keyvault_get : string → Remote → (error + swagger.CredentialsObject) * Remote;
  keyvault_set :
    store.SecretProperties Time → swagger.CredentialsObject → Remote → option error * Remote;
  dataplane_get :
    dataplane.UserAssignedMSIRequest → Remote
    → (error + dataplane.UserAssignedIdentities) * Remote;
  clock : Remote → Time * Remote;
  interim : Database.t → Database.t
}.

Definition RFC3339 : string := "2006-01-02T15:04:05Z07:00".

Section Cluster.
Context `{Rt : GoRuntime} `{Api : ApiMethods} `{Svc : !Services}.

(** Every call that leaves the process, in the order it was made. *)
Inductive Call : Type :=
| call_GetCredentialsObject (name : string)
| call_SetCredentialsObject (properties : store.SecretProperties Time)
                            (payload : swagger.CredentialsObject)
| call_GetUserAssignedIdentities (request : dataplane.UserAssignedMSIRequest)
| call_PatchWithLease (key : string)
| call_Now.

Record World : Type := {
  remote : Remote;
  database : Database.t;
  calls : list Call
}.

Definition is_write (c : Call) : bool :=
  match c with call_SetCredentialsObject _ _ => true | _ => false end.
Definition is_fetch (c : Call) : bool :=
  match c with call_GetUserAssignedIdentities _ => true | _ => false end.
Definition is_patch (c : Call) : bool :=
  match c with call_PatchWithLease _ => true | _ => false end.

Definition writes (w : World) : list Call := filter (λ c, is_write c = true) (calls w).
Definition fetches (w : World) : list Call := filter (λ c, is_fetch c = true) (calls w).
Definition patches (w : World) : list Call := filter (λ c, is_patch c = true) (calls w).

(** *** The monad of manager methods *)
Definition M (A : Type) : Type := manager → World → outcome A * manager * World.

Definition ret {A} (a : A) : M A := λ m w, (Returned a, m, w).

Definition bind {A B} (c : M A) (k : A → M B) : M B :=
  λ m w,
    match c m w with
    | (Returned a, m', w') => k a m' w'
    | (Panicked, m', w') => (Panicked, m', w')
    end.

(** [x, err := c; if err != nil { return ..., err }] *)
Definition bind_err {A R} `{Fallible R} (c : M (error + A)) (k : A → M R) : M R :=
  bind c (λ r, match r with inl err => ret (failWith err) | inr a => k a end).

Notation "'let*' x ':=' c 'in' k" := (bind c (λ x, k))
  (at level 10, x name, c at level 100, k at level 200).
Notation "'let?' x ':=' c 'in' k" := (bind_err c (λ x, k))
  (at level 10, x name, c at level 100, k at level 200).

(** [m.doc.…]: dereference the manager's document pointer. *)
Definition m_doc : M api.OpenShiftClusterDocument :=
  λ m w, match doc m with
         | Some d => (Returned d, m, w)
         | None => (Panicked, m, w)
         end.

Definition m_env : M env.Interface := λ m w, (Returned (env m), m, w).

Definition assign_doc (d : option api.OpenShiftClusterDocument) : M unit :=
  λ m w, (Returned tt, set_doc d m, w).

(** The world after one call to a service: the service's new state, and the
    call appended to the log. *)
Definition record (c : Call) (r : Remote) (w : World) : World :=
  {| remote := r; database := database w; calls := calls w ++ [c] |}.

Definition external {A} (c : Call) (handler : Remote → A * Remote) : M A :=
  λ m w,
    let '(a, r) := handler (remote w) in
    (Returned a, m, record c r w).

Definition clusterMsiKeyVaultStore_GetCredentialsObject (secretName : string)
  : M (error + swagger.CredentialsObject) :=
  external (call_GetCredentialsObject secretName) (keyvault_get secretName).

Definition clusterMsiKeyVaultStore_SetCredentialsObject
    (properties : store.SecretProperties Time) (payload : swagger.CredentialsObject)
  : M (option error) :=
  external (call_SetCredentialsObject properties payload) (keyvault_set properties payload).

Definition msiDataplane_GetUserAssignedIdentities (request : dataplane.UserAssignedMSIRequest)
  : M (error + dataplane.UserAssignedIdentities) :=
  external (call_GetUserAssignedIdentities request) (dataplane_get request).

Definition time_Now : M Time := external call_Now clock.

Definition db_PatchWithLease (key : string)
    (mutate : api.OpenShiftClusterDocument → api.OpenShiftClusterDocument * option error)
  : M (option api.OpenShiftClusterDocument * option error) :=
  λ m w,
    let '(r, d) := Database.PatchWithLease interim key mutate (database w) in
    (Returned r, m,
     {| remote := remote w; database := d;
        calls := calls w ++ [call_PatchWithLease key] |}).

(** *** clusterMsiSecretName *)

Definition clusterMsiSecretName : M (error + string) :=
  let* d := m_doc in
  let? clusterMsi := ret (ClusterMsiResourceId (api.doc_OpenShiftCluster d)) in
  ret (inr (api.ID d ++ "-" ++ arm.Name clusterMsi)).

(** *** ensureClusterMsiCertificate *)

(** The type assertion of line 45: [Some] when the dynamic type of [err] is
    the azcore response error. *)
Definition as_ResponseError (err : error) : option Z :=
  match err with
  | ResponseError StatusCode _ => Some StatusCode
  | _ => None
  end.

(** [!ok || azcoreErr.StatusCode != http.StatusNotFound] *)
Definition lookup_is_fatal (err : error) : bool :=
  match as_ResponseError err with
  | Some StatusCode => negb (StatusCode =? http.StatusNotFound)
  | None => true
  end.

Definition msiRequest (d : api.OpenShiftClusterDocument) (clusterMsiResourceId : arm.ResourceID)
  : dataplane.UserAssignedMSIRequest :=
  let i := api.Identity (api.doc_OpenShiftCluster d) in
  {| dataplane.IdentityURL := api.IdentityURL i;
     dataplane.ResourceIDs := [arm.String clusterMsiResourceId];
     dataplane.TenantID := api.TenantID i |}.

(** The two ways the expiration date is obtained (lines 67-84). *)
Definition expirationDate (mock : bool) (now : Time)
    (msiCredObj : dataplane.UserAssignedIdentities) : error + Time :=
  if mock then inr (AddDate now 0 0 mockMsiCertValidityDays)
  else
    match getSingleExplicitIdentity msiCredObj with
    | inl err => inl err
    | inr identity =>
        match swagger.NotAfter identity with
        | None => inl (errors_New "unable to pull NotAfter from the MSI CredentialsObject")
        | Some notAfter => Parse RFC3339 notAfter
        end
    end.

Definition ensureClusterMsiCertificate : M (option error) :=
  let? secretName := clusterMsiSecretName in
  let* found := clusterMsiKeyVaultStore_GetCredentialsObject secretName in
  match found with
  | inr _ => ret None
  | inl err =>
      if lookup_is_fatal err then ret (Some err)
      else
        let* d := m_doc in
        let? clusterMsiResourceId := ret (ClusterMsiResourceId (api.doc_OpenShiftCluster d)) in
        let uaMsiRequest := msiRequest d clusterMsiResourceId in
        let? msiCredObj := msiDataplane_GetUserAssignedIdentities uaMsiRequest in
        let* now := time_Now in
        let* e := m_env in
        let? expires :=
          ret (expirationDate (env.FeatureIsSet e env.FeatureUseMockMsiRp) now msiCredObj) in
        let secretProperties :=
          {| store.Enabled := true;
             store.Expires := expires;
             store.Name := secretName;
             store.NotBefore := now |} in
        clusterMsiKeyVaultStore_SetCredentialsObject
          secretProperties (dataplane.CredentialsObject msiCredObj)
  end.

(** *** clusterIdentityIDs *)

Definition set_ClientID (s : string) (v : api.UserAssignedIdentity) : api.UserAssignedIdentity :=
  {| api.ClientID := s; api.PrincipalID := api.PrincipalID v |}.
Definition set_PrincipalID (s : string) (v : api.UserAssignedIdentity) : api.UserAssignedIdentity :=
  {| api.ClientID := api.ClientID v; api.PrincipalID := s |}.

(** The [for k, v := range ...] loop of the mutation: the entries still to be
    visited, and the map they came from.  [Some] is the map after the
    assignment that precedes [return nil]; [None] is falling out of the loop. *)
Fixpoint range_identities (resourceId clientID objectID : string)
    (entries : list (string * api.UserAssignedIdentity))
    (identities : gmap string api.UserAssignedIdentity)
  : option (gmap string api.UserAssignedIdentity) :=
  match entries with
  | [] => None
  | (k, v) :: rest =>
      if EqualFold k resourceId then
        let v := set_PrincipalID objectID (set_ClientID clientID v) in
        Some (<[k := v]> identities)
      else range_identities resourceId clientID objectID rest identities
  end.

(** The function literal handed to [PatchWithLease] (lines 187-202), closed
    over [clusterMsiResourceId] and the two strings behind [identity]. *)
Definition clusterIdentityIDs_mutate (clusterMsiResourceId : arm.ResourceID)
    (clientID objectID : string) (d : api.OpenShiftClusterDocument)
  : api.OpenShiftClusterDocument * option error :=
  let identities := api.identities d in
  match range_identities (arm.String clusterMsiResourceId) clientID objectID
          (range_order identities) identities with
  | Some identities' => (api.set_identities identities' d, None)
  | None => (d, Some (fmt_Errorf "no entries found matching clusterMsiResourceId"))
  end.

Definition clusterIdentityIDs : M (option error) :=
  let* d := m_doc in
  if negb (UsesWorkloadIdentity (api.doc_OpenShiftCluster d)) then
    ret (Some (fmt_Errorf "clusterIdentityIDs called for CSP cluster"))
  else
    let? clusterMsiResourceId := ret (ClusterMsiResourceId (api.doc_OpenShiftCluster d)) in
    let uaMsiRequest := msiRequest d clusterMsiResourceId in
    let? msiCredObj := msiDataplane_GetUserAssignedIdentities uaMsiRequest in
    let? identity := ret (getSingleExplicitIdentity msiCredObj) in
    match swagger.ClientID identity, swagger.ObjectID identity with
    | Some clientID, Some objectID =>
        let* patched :=
          db_PatchWithLease (api.Key d)
            (clusterIdentityIDs_mutate clusterMsiResourceId clientID objectID) in
        let* _ := assign_doc (fst patched) in
        ret (snd patched)
    | _, _ =>
        ret (Some (fmt_Errorf
          "unable to pull clientID and objectID from the MSI CredentialsObject"))
    end.

End Cluster.

(** ** A concrete platform

    One instance of each interface, small enough to run: an ASCII
    [EqualFold], a UTC clock counting whole seconds whose parser reads the
    [Z] form of RFC 3339, a key vault that is a finite map, and an identity
    service that always hands out the same credentials. *)
Module Sample.

Definition lower (c : ascii) : ascii :=
  let n := nat_of_ascii c in
  if ((65 <=? n) && (n <=? 90))%nat then ascii_of_nat (n + 32) else c.

Fixpoint ascii_EqualFold (s t : string) : bool :=
  match s, t with
  | EmptyString, EmptyString => true
  | String a s', String b t' => Ascii.eqb (lower a) (lower b) && ascii_EqualFold s' t'
  | _, _ => false
  end.

(** Days since 1970-01-01 of a proleptic Gregorian date, and back; a month
    outside 1..12 is carried into the year first, as [time.Date] does. *)
Definition days_from_civil (y m d : Z) : Z :=
  let y := y + (m - 1) / 12 in
  let m := (m - 1) mod 12 + 1 in
  let y := if m <=? 2 then y - 1 else y in
  let era := y / 400 in
  let yoe := y - era * 400 in
  let doy := (153 * (if 2 <? m then m - 3 else m + 9) + 2) / 5 + d - 1 in
  let doe := yoe * 365 + yoe / 4 - yoe / 100 + doy in
  era * 146097 + doe - 719468.

Definition civil_from_days (z : Z) : Z * Z * Z :=
  let z := z + 719468 in
  let era := z / 146097 in
  let doe := z - era * 146097 in
  let yoe := (doe - doe / 1460 + doe / 36524 - doe / 146096) / 365 in
  let doy := doe - (365 * yoe + yoe / 4 - yoe / 100) in
  let mp := (5 * doy + 2) / 153 in
  let d := doy - (153 * mp + 2) / 5 + 1 in
  let m := if mp <? 10 then mp + 3 else mp - 9 in
  let y := yoe + era * 400 in
  (if m <=? 2 then y + 1 else y, m, d).

(** Seconds since the epoch, UTC. *)
Definition utc_AddDate (t years months days : Z) : Z :=
  let '(y, m, d) := civil_from_days (t / 86400) in
  days_from_civil (y + years) (m + months) 1 * 86400 + (d - 1 + days) * 86400 + t mod 86400.

Definition digit (c : ascii) : option Z :=
  let n := nat_of_ascii c in
  if ((48 <=? n) && (n <=? 57))%nat then Some (Z.of_nat n - 48) else None.

Fixpoint number (acc : Z) (cs : list ascii) : option Z :=
  match cs with
  | [] => Some acc
  | c :: cs => match digit c with
               | Some d => number (10 * acc + d) cs
               | None => None
               end
  end.

Definition errParse (value : string) : error := ForeignError "time.ParseError" value.

Definition utc_Parse (layout value : string) : error + Z :=
  match list_ascii_of_string value with
  | [y1; y2; y3; y4; "-"; m1; m2; "-"; d1; d2; "T"; h1; h2; ":"; i1; i2; ":"; s1; s2; "Z"]%char =>
      match number 0 [y1; y2; y3; y4], number 0 [m1; m2], number 0 [d1; d2],
            number 0 [h1; h2], number 0 [i1; i2], number 0 [s1; s2] with
      | Some y, Some m, Some d, Some h, Some i, Some s =>
          let days := days_from_civil y m d in
          if String.eqb layout RFC3339
             && bool_decide (civil_from_days days = (y, m, d))
             && (h <? 24) && (i <? 60) && (s <? 60)
          then inr (days * 86400 + h * 3600 + i * 60 + s)
          else inl (errParse value)
      | _, _, _, _, _, _ => inl (errParse value)
      end
  | _ => inl (errParse value)
  end.

#[local] Instance runtime : GoRuntime := {|
  EqualFold := ascii_EqualFold;
  Time := Z;
  AddDate := utc_AddDate;
  Parse := utc_Parse;
  range_order := map_to_list;
  range_order_perm := λ m, reflexivity (map_to_list m)
|}.

(** The cluster MSI is the first user-assigned identity of the cluster; its
    name is what follows the last [/] of the identifier. *)
Fixpoint last_segment (acc s : string) : string :=
  match s with
  | EmptyString => acc
  | String "/" s' => last_segment EmptyString s'
  | String c s' => last_segment (acc ++ String c EmptyString) s'
  end.

Definition errMissingIdentityParameter : error :=
  ForeignError "api" "identity parameter not provided but required for workload identity cluster".

#[local] Instance methods : ApiMethods := {|
  ClusterMsiResourceId oc :=
    match map_to_list (api.UserAssignedIdentities (api.Identity oc)) with
    | [] => inl errMissingIdentityParameter
    | (k, _) :: _ => inr {| arm.Name := last_segment EmptyString k; arm.String := k |}
    end;
  UsesWorkloadIdentity oc :=
    bool_decide ("platformWorkloadIdentityProfile" ∈ oc.(api.cluster_other).*1)
|}.

(** [outage], when set, is the error every vault lookup fails with. *)
Record Cloud : Type := {
  vault : gmap string (store.SecretProperties Z * swagger.CredentialsObject);
  outage : option error;
  issued : dataplane.UserAssignedIdentities;
  wall : Z
}.

#[local] Instance services : Services := {|
  Remote := Cloud;
  keyvault_get name c :=
    (match outage c, vault c !! name with
     | Some err, _ => inl err
     | None, Some (_, payload) => inr payload
     | None, None => inl (ResponseError 404 "SecretNotFound")
     end, c);
  keyvault_set properties payload c :=
    (None, {| vault := <[store.Name properties := (properties, payload)]> (vault c);
              outage := outage c; issued := issued c; wall := wall c |});
  dataplane_get _ c := (inr (issued c), c);
  clock c := (wall c, c);
  interim d := d
|}.

(** A workload-identity cluster whose one identity is keyed ["Foo"]. *)
Definition stale : api.UserAssignedIdentity :=
  {| api.ClientID := "old-client"; api.PrincipalID := "old-principal" |}.

Definition cluster (identities : gmap string api.UserAssignedIdentity) : api.OpenShiftCluster :=
  {| api.Identity :=
       {| api.IdentityURL := "https://identity.example/v1";
          api.TenantID := "tenant-1";
          api.UserAssignedIdentities := identities;
          api.identity_other := [("type", "UserAssigned")] |};
     api.cluster_other := [("platformWorkloadIdentityProfile", "{}")] |}.

Definition document (identities : gmap string api.UserAssignedIdentity)
  : api.OpenShiftClusterDocument :=
  {| api.ID := "doc-1"; api.Key := "key-1";
     api.doc_OpenShiftCluster := cluster identities;
     api.doc_other := [] |}.

Definition csp_document : api.OpenShiftClusterDocument :=
  {| api.ID := "doc-2"; api.Key := "key-2";
     api.doc_OpenShiftCluster :=
       {| api.Identity := api.Identity (cluster ∅);
          api.cluster_other := [("servicePrincipalProfile", "{}")] |};
     api.doc_other := [] |}.

Definition nested (notAfter : option string) : swagger.NestedCredentialsObject :=
  {| swagger.ClientID := Some "new-client";
     swagger.ObjectID := Some "new-object";
     swagger.NotAfter := notAfter;
     swagger.nested_other := [] |}.

Definition credentials (explicit : option (list (option swagger.NestedCredentialsObject)))
  : dataplane.UserAssignedIdentities :=
  {| dataplane.CredentialsObject :=
       {| swagger.ExplicitIdentities := explicit;
          swagger.credentials_other := [("client_secret", "pem")] |};
     dataplane.cloud := "public" |}.

(** A response with one identity, valid until the start of 2030. *)
Definition populated : option (list (option swagger.NestedCredentialsObject)) :=
  Some [Some (nested (Some "2030-01-01T00:00:00Z"))].

Definition cloud (explicit : option (list (option swagger.NestedCredentialsObject))) : Cloud :=
  {| vault := ∅; outage := None; issued := credentials explicit; wall := 1700000000 |}.

(** The same cloud with the secret of [keyed_Foo] already in the vault, and
    with the vault unreachable. *)
Definition stocked (c : Cloud) : Cloud :=
  {| vault := {[ "doc-1-Foo" :=
                   ({| store.Enabled := true; store.Expires := 1707776000;
                       store.Name := "doc-1-Foo"; store.NotBefore := 1700000000 |},
                    dataplane.CredentialsObject (issued c)) ]};
     outage := None; issued := issued c; wall := wall c |}.

Definition unreachable (err : error) (c : Cloud) : Cloud :=
  {| vault := vault c; outage := Some err; issued := issued c; wall := wall c |}.

Definition foo : arm.ResourceID := {| arm.Name := "foo"; arm.String := "foo" |}.
Definition Foo : arm.ResourceID := {| arm.Name := "Foo"; arm.String := "Foo" |}.

Definition fresh : api.UserAssignedIdentity :=
  {| api.ClientID := "new-client"; api.PrincipalID := "new-object" |}.

Definition keyed_Foo : api.OpenShiftClusterDocument := document {[ "Foo" := stale ]}.
Definition keyed_Bar : api.OpenShiftClusterDocument := document {[ "Bar" := stale ]}.
Definition keyed_Foo_FOO : api.OpenShiftClusterDocument :=
  document {[ "Foo" := stale; "FOO" := stale ]}.

Definition mgr (d : api.OpenShiftClusterDocument) (mock : bool) : manager :=
  {| doc := Some d;
     env := {| env.FeatureIsSet f :=
                 match f with env.FeatureUseMockMsiRp => mock | _ => false end |} |}.

Definition world (c : Cloud) (d : api.OpenShiftClusterDocument) : World :=
  {| remote := c;
     database :=
       {| Database.documents := {[ api.Key d := {| Database.version := 7; Database.content := d |} ]};
          Database.leased := ∅ |};
     calls := [] |}.

End Sample.

(** ** The rest of the manager: tenant fix-up and client initialization *)

(** The subscription document, as far as this file reads it. *)
Module subscription.

Record SubscriptionProperties : Type := {
  TenantID : string;
  properties_other : OtherFields
}.

Record Subscription : Type := {
  Properties : SubscriptionProperties;
  subscription_other : OtherFields
}.

Record SubscriptionDocument : Type := {
  ID : string;
  doc_Subscription : Subscription;
  doc_other : OtherFields
}.

End subscription.

(** [doc.OpenShiftCluster.Identity.TenantID = ...]: only that field changes. *)
Definition set_TenantID (tenant : string) (d : api.OpenShiftClusterDocument)
  : api.OpenShiftClusterDocument :=
  let oc := api.doc_OpenShiftCluster d in
  let i := api.Identity oc in
  {| api.ID := api.ID d;
     api.Key := api.Key d;
     api.doc_OpenShiftCluster :=
       {| api.Identity :=
            {| api.IdentityURL := api.IdentityURL i;
               api.TenantID := tenant;
               api.UserAssignedIdentities := api.UserAssignedIdentities i;
               api.identity_other := api.identity_other i |};
          api.cluster_other := api.cluster_other oc |};
     api.doc_other := api.doc_other d |}.

(** *** What [initializeClusterMsiClients] builds on

    The constructors of the MSI dataplane module and of the Azure SDK, and the
    two questions asked of [m.env.Environment()].  None of them leaves the
    process. *)
Class ClientLibraries : Type := {
  TokenCredential : Type;
  ClientOptions : Type;
  FederatedIdentityCredentialsClient : Type;
  UserAssignedIdentitiesClient : Type;
  CloudNameForMsiDataplane : env.Interface → error + string;
  ArmClientOptions : env.Interface → ClientOptions;
  NewUserAssignedIdentities :
    swagger.CredentialsObject → string → error + dataplane.UserAssignedIdentities;
  GetCredential : dataplane.UserAssignedIdentities → string → error + TokenCredential;
  NewFederatedIdentityCredentialsClient :
    string → TokenCredential → ClientOptions → error + FederatedIdentityCredentialsClient;
  NewUserAssignedIdentitiesClient :
    string → TokenCredential → ClientOptions → error + UserAssignedIdentitiesClient
}.

(** The two client fields of the manager; nil until they are assigned. *)
Record msiClients `{ClientLibraries} : Type := {
  clusterMsiFederatedIdentityCredentials : option FederatedIdentityCredentialsClient;
  userAssignedIdentities : option UserAssignedIdentitiesClient
}.

Section Lifecycle.
Context `{Rt : GoRuntime} `{Api : ApiMethods} `{Svc : !Services} `{Lib : ClientLibraries}.

Notation "'let*' x ':=' c 'in' k" := (bind c (λ x, k))
  (at level 10, x name, c at level 100, k at level 200).
Notation "'let?' x ':=' c 'in' k" := (bind_err c (λ x, k))
  (at level 10, x name, c at level 100, k at level 200).

(** *** fixupClusterMsiTenantID *)

(** The function literal of lines 225-228, closed over [m.subscriptionDoc]. *)
Definition fixupClusterMsiTenantID_mutate (subscriptionDoc : subscription.SubscriptionDocument)
    (d : api.OpenShiftClusterDocument) : api.OpenShiftClusterDocument * option error :=
  (set_TenantID
     (subscription.TenantID
        (subscription.Properties (subscription.doc_Subscription subscriptionDoc))) d,
   None).

(** [m.subscriptionDoc] is only read, so it is passed in. *)
Definition fixupClusterMsiTenantID (subscriptionDoc : subscription.SubscriptionDocument)
  : M (option error) :=
  let* d := m_doc in
  let* patched :=
    db_PatchWithLease (api.Key d) (fixupClusterMsiTenantID_mutate subscriptionDoc) in
  let* _ := assign_doc (fst patched) in
  ret (snd patched).

(** *** initializeClusterMsiClients *)

Section Initialize.
(** The client fields as they are when the method is entered: an early return
    hands them back untouched. *)
Variable clients : msiClients.

#[local] Instance fallible_keep : Fallible (option error * msiClients) :=
  λ err, (Some err, clients).

(** The error returned, and the two client fields of the manager afterwards.
    The value of the lookup stands for [kvSecret.CredentialsObject]. *)
Definition initializeClusterMsiClients (subscriptionDoc : subscription.SubscriptionDocument)
  : M (option error * msiClients) :=
  let? secretName := clusterMsiSecretName in
  let? kvSecret := clusterMsiKeyVaultStore_GetCredentialsObject secretName in
  let* e := m_env in
  let? cloud := ret (CloudNameForMsiDataplane e) in
  let? uaIdentities := ret (NewUserAssignedIdentities kvSecret cloud) in
  let* d := m_doc in
  let? msiResourceId := ret (ClusterMsiResourceId (api.doc_OpenShiftCluster d)) in
  let? azureCred := ret (GetCredential uaIdentities (arm.String msiResourceId)) in
  let subId := subscription.ID subscriptionDoc in
  let clientOptions := ArmClientOptions e in
  let? federated :=
    ret (NewFederatedIdentityCredentialsClient subId azureCred clientOptions) in
  let? identities :=
    ret (NewUserAssignedIdentitiesClient subId azureCred clientOptions) in
  ret (None,
       {| clusterMsiFederatedIdentityCredentials := Some federated;
          userAssignedIdentities := Some identities |}).

End Initialize.

End Lifecycle.

(** ** pkg/util/version: container image references *)
Module version.

Definition GitCommit : string := "unknown".

Definition FluentbitImage (acr : string) : string :=
  acr ++ ".azurecr.io/fluentbit:1.3.9-1".

Definition MdmImage (acr : string) : string :=
  acr ++ ".azurecr.io/genevamdm:master_51".

Definition MdsdImage (acr : string) : string :=
  acr ++ ".azurecr.io/genevamdsd:master_330".

End version.

(** ** A concrete set of client libraries

    Credentials and clients are plain records of what they were built from; a
    credential is handed out only for an identifier the payload knows. *)
Module SampleClients.

Record Client : Type := {
  client_subscription : string;
  client_credential : string;
  client_endpoint : string
}.

Definition errNoCredential : error :=
  ForeignError "dataplane" "no credential for this resource id".
Definition errNoPayload : error :=
  ForeignError "dataplane" "credentials object holds no identity".

#[local] Instance libraries : ClientLibraries := {|
  TokenCredential := string;
  ClientOptions := string;
  FederatedIdentityCredentialsClient := Client;
  UserAssignedIdentitiesClient := Client;
  CloudNameForMsiDataplane _ := inr "public";
  ArmClientOptions _ := "https://management.azure.com";
  NewUserAssignedIdentities payload cloud :=
    match swagger.ExplicitIdentities payload with
    | Some (_ :: _) => inr {| dataplane.CredentialsObject := payload; dataplane.cloud := cloud |}
    | _ => inl errNoPayload
    end;
  GetCredential ids resourceId :=
    match getSingleExplicitIdentity ids with
    | inr identity =>
        match swagger.ClientID identity with
        | Some clientID => inr (clientID ++ "@" ++ resourceId)
        | None => inl errNoCredential
        end
    | inl _ => inl errNoCredential
    end;
  NewFederatedIdentityCredentialsClient subId cred options :=
    inr {| client_subscription := subId; client_credential := cred;
           client_endpoint := options |};
  NewUserAssignedIdentitiesClient subId cred options :=
    inr {| client_subscription := subId; client_credential := cred;
           client_endpoint := options |}
|}.

Definition subscriptionDoc : subscription.SubscriptionDocument :=
  {| subscription.ID := "sub-1";
     subscription.doc_Subscription :=
       {| subscription.Properties :=
            {| subscription.TenantID := "tenant-2";
               subscription.properties_other := [] |};
          subscription.subscription_other := [] |};
     subscription.doc_other := [] |}.

Definition unset : msiClients :=
  {| clusterMsiFederatedIdentityCredentials := None; userAssignedIdentities := None |}.

(** Both clients, built for the identity keyed ["Foo"]. *)
Definition client_Foo : Client :=
  {| client_subscription := "sub-1"; client_credential := "new-client@Foo";
     client_endpoint := "https://management.azure.com" |}.

Definition ready : msiClients :=
  @Build_msiClients libraries (Some client_Foo) (Some client_Foo).

(** The sample services with the identity service out of reach. *)
Definition errOffline : error := ForeignError "net" "identity service unreachable".

#[local] Instance offline : Services (H := Sample.runtime) := {|
  Remote := Sample.Cloud;
  keyvault_get := keyvault_get (Services := Sample.services);
  keyvault_set := keyvault_set (Services := Sample.services);
  dataplane_get _ c := (inl errOffline, c);
  clock := clock (Services := Sample.services);
  interim d := d
|}.

Definition offline_world (c : Sample.Cloud) (d : api.OpenShiftClusterDocument)
  : World (Svc := offline) :=
  @Build_World Sample.runtime offline c
    (database (Svc := Sample.services) (Sample.world c d)) [].

(** An identity record without an object ID. *)
Definition incomplete : option (list (option swagger.NestedCredentialsObject)) :=
  Some [Some {| swagger.ClientID := Some "new-client";
                swagger.ObjectID := None;
                swagger.NotAfter := Some "2030-01-01T00:00:00Z";
                swagger.nested_other := [] |}].

(** A workload-identity cluster with no user-assigned identity at all. *)
Definition keyed_nothing : api.OpenShiftClusterDocument := Sample.document ∅.

End SampleClients.

(** ** Properties *)

Section Properties.
Context `{Rt : GoRuntime} `{Api : ApiMethods} `{Svc : !Services}.

Implicit Types (d : api.OpenShiftClusterDocument) (m : manager) (w : World).
Implicit Types (ids : gmap string api.UserAssignedIdentity).
Implicit Types (rid : arm.ResourceID) (k clientID objectID : string).

(** *** The range loop *)

(** What [range] visits is exactly what the map holds. *)
Lemma range_order_lookup ids k (v : api.UserAssignedIdentity) :
  (k, v) ∈ range_order ids ↔ ids !! k = Some v.
Proof. rewrite (range_order_perm ids). apply elem_of_map_to_list. Qed.

(** The loop stops at an entry it was given, whose key folds to the
    identifier, and stores the two fields under that very key. *)
Lemma range_identities_Some resourceId clientID objectID entries ids ids' :
  range_identities resourceId clientID objectID entries ids = Some ids' →
  ∃ k v, (k, v) ∈ entries ∧ EqualFold k resourceId = true ∧
         ids' = <[k := set_PrincipalID objectID (set_ClientID clientID v)]> ids.
Proof.
  induction entries as [|[k v] rest IH]; simpl; [done|].
  destruct (EqualFold k resourceId) eqn:Hfold.
  - intros [= <-]. exists k, v. split_and!; [left | done | done].
  - intros (k' & v' & Hin & ? & ?)%IH. exists k', v'. split_and!; [by right | done | done].
Qed.

(** The loop falls through exactly when no visited key folds to the identifier. *)
Lemma range_identities_None resourceId clientID objectID entries ids :
  range_identities resourceId clientID objectID entries ids = None ↔
  ∀ k v, (k, v) ∈ entries → EqualFold k resourceId = false.
Proof.
  induction entries as [|[k v] rest IH]; simpl.
  - split; [intros _ ? ? Hin; inversion Hin | done].
  - destruct (EqualFold k resourceId) eqn:Hfold.
    + split; [done|]. intros Hall. specialize (Hall k v (list_elem_of_here _ _)). congruence.
    + rewrite IH. split.
      * intros Hall k' v' [[= -> ->]|Hin]%elem_of_cons; eauto.
      * intros Hall k' v' Hin. apply (Hall k' v'). by right.
Qed.

(** *** The mutation handed to [PatchWithLease] *)

Lemma mutate_no_match rid clientID objectID d :
  (∀ k v, api.identities d !! k = Some v → EqualFold k (arm.String rid) = false) →
  clusterIdentityIDs_mutate rid clientID objectID d =
    (d, Some (fmt_Errorf "no entries found matching clusterMsiResourceId")).
Proof.
  intros Hnone. unfold clusterIdentityIDs_mutate.
  assert (range_identities (arm.String rid) clientID objectID
            (range_order (api.identities d)) (api.identities d) = None) as ->; [|done].
  apply range_identities_None. intros k v Hin%range_order_lookup. eauto.
Qed.

Lemma mutate_match rid clientID objectID d k0 (v0 : api.UserAssignedIdentity) :
  api.identities d !! k0 = Some v0 →
  EqualFold k0 (arm.String rid) = true →
  ∃ k v,
    api.identities d !! k = Some v ∧
    EqualFold k (arm.String rid) = true ∧
    clusterIdentityIDs_mutate rid clientID objectID d =
      (api.set_identities
         (<[k := {| api.ClientID := clientID; api.PrincipalID := objectID |}]>
            (api.identities d)) d,
       None).
Proof.
  intros Hk0 Hfold. unfold clusterIdentityIDs_mutate.
  destruct (range_identities _ _ _ _ _) as [ids'|] eqn:Hrange.
  - apply range_identities_Some in Hrange as (k & v & Hin%range_order_lookup & ? & ->).
    exists k, v. split_and!; done.
  - rewrite range_identities_None in Hrange.
    apply range_order_lookup in Hk0. specialize (Hrange _ _ Hk0). congruence.
Qed.

Lemma identities_set_identities ids d : api.identities (api.set_identities ids d) = ids.
Proof. done. Qed.

(** *** Claims about [getSingleExplicitIdentity] *)

(** C3.  [getSingleExplicitIdentity] returns the dedicated
    [errClusterMsiNotPresentInResponse] exactly when the [ExplicitIdentities]
    slice is nil, empty, or starts with a nil pointer; otherwise it returns the
    first element.  The length is not required to be one: a response with two
    Sample.populated entries is accepted and its first entry returned. *)
Theorem getSingleExplicitIdentity_spec :
  (∀ resp : dataplane.UserAssignedIdentities,
     (getSingleExplicitIdentity resp = inl errClusterMsiNotPresentInResponse ↔
        dataplane.ExplicitIdentities resp = None ∨
        dataplane.ExplicitIdentities resp = Some [] ∨
        ∃ rest, dataplane.ExplicitIdentities resp = Some (None :: rest)) ∧
     (∀ first rest,
        dataplane.ExplicitIdentities resp = Some (Some first :: rest) ↔
        getSingleExplicitIdentity resp = inr first ∧
        tail (default [] (dataplane.ExplicitIdentities resp)) = rest)) ∧
  (∃ (resp : dataplane.UserAssignedIdentities) a b,
     dataplane.ExplicitIdentities resp = Some [Some a; Some b] ∧
     getSingleExplicitIdentity resp = inr a).
Proof.
  split.
  - intros resp. unfold getSingleExplicitIdentity.
    destruct (dataplane.ExplicitIdentities resp) as [[|[x|] l]|]; simpl; split.
    + split; [by auto | done].
    + intros first rest. split; [done | by intros [? _]].
    + split; [done|]. intros [?|[?|[? ?]]]; done.
    + intros first rest. split; [by intros [= -> ->] | by intros [[= ->] ->]].
    + split; [by eauto | done].
    + intros first rest. split; [done | by intros [? _]].
    + split; [by auto | done].
    + intros first rest. split; [done | by intros [? _]].
  - exists {| dataplane.CredentialsObject :=
                {| swagger.ExplicitIdentities :=
                     Some [Some (Sample.nested None); Some (Sample.nested (Some "x"))];
                   swagger.credentials_other := [] |};
              dataplane.cloud := "" |}.
    by eexists _, _.
Qed.

(** *** Claims about the mutation of [clusterIdentityIDs] *)


(** C10.  When the mutation finds a match it changes the [ClientID] and
    [PrincipalID] of that one entry and nothing else: the key set of
    [UserAssignedIdentities], the value under every other key, and every other
    field of the document are as before. *)
Theorem mutate_changes_one_entry_only
    rid clientID objectID d k0 (v0 : api.UserAssignedIdentity) :
  api.identities d !! k0 = Some v0 →
  EqualFold k0 (arm.String rid) = true →
  ∃ d' k,
    clusterIdentityIDs_mutate rid clientID objectID d = (d', None) ∧
    k ∈ dom (api.identities d) ∧
    dom (api.identities d') = dom (api.identities d) ∧
    (∀ k', k' ≠ k → api.identities d' !! k' = api.identities d !! k') ∧
    d' = api.set_identities (api.identities d') d ∧
    api.ID d' = api.ID d ∧
    api.Key d' = api.Key d ∧
    api.doc_other d' = api.doc_other d ∧
    api.cluster_other (api.doc_OpenShiftCluster d') =
      api.cluster_other (api.doc_OpenShiftCluster d) ∧
    api.IdentityURL (api.Identity (api.doc_OpenShiftCluster d')) =
      api.IdentityURL (api.Identity (api.doc_OpenShiftCluster d)) ∧
    api.TenantID (api.Identity (api.doc_OpenShiftCluster d')) =
      api.TenantID (api.Identity (api.doc_OpenShiftCluster d)) ∧
    api.identity_other (api.Identity (api.doc_OpenShiftCluster d')) =
      api.identity_other (api.Identity (api.doc_OpenShiftCluster d)).
Proof.
  intros Hk0 Hfold.
  destruct (mutate_match rid clientID objectID d k0 v0 Hk0 Hfold) as (k & v & Hk & Hkfold & ->).
  eexists _, k. split; [done|].
  rewrite identities_set_identities.
  split_and!; try done.
  - apply elem_of_dom; eauto.
  - apply dom_insert_lookup_L. eauto.
  - intros k' Hne. by rewrite lookup_insert_ne.
Qed.

(** *** The patch primitive *)

Lemma release_acquire key (db : Database.t) :
  key ∉ Database.leased db → Database.release key (Database.acquire key db) = db.
Proof.
  intros Hfree. destruct db as [docs held]. unfold Database.release, Database.acquire.
  simpl in *. f_equal.
  rewrite difference_union_distr_l_L, difference_diag_L, (left_id_L ∅ (∪)).
  apply difference_disjoint_L. symmetry. by apply disjoint_singleton_l.
Qed.

(** C2.  If no key of [UserAssignedIdentities] case-insensitively equals the
    cluster MSI resource identifier, the mutation leaves its copy as it was and
    returns the error "no entries found matching clusterMsiResourceId"; the
    patch that runs it on the stored document returns that same error and no
    document, and the database, versions and contents alike, is as it was
    before the call. *)
Theorem no_match_aborts_patch
    rid clientID objectID (db : Database.t) key (stored : Database.Versioned) :
  Database.documents db !! key = Some stored →
  key ∉ Database.leased db →
  (∀ k v, api.identities (Database.content stored) !! k = Some v →
          EqualFold k (arm.String rid) = false) →
  let mutate := clusterIdentityIDs_mutate rid clientID objectID in
  let err := fmt_Errorf "no entries found matching clusterMsiResourceId" in
  mutate (Database.content stored) = (Database.content stored, Some err) ∧
  Database.PatchWithLease interim key mutate db = ((None, Some err), db) ∧
  Database.documents (Database.PatchWithLease interim key mutate db).2 !! key = Some stored.
Proof.
  intros Hstored Hfree Hnone mutate err.
  pose proof (mutate_no_match rid clientID objectID _ Hnone) as Hmut.
  assert (Database.PatchWithLease interim key mutate db = ((None, Some err), db)) as Hpatch.
  { unfold Database.PatchWithLease. rewrite decide_False by done.
    cbn [Database.acquire Database.documents]. rewrite Hstored.
    unfold mutate. rewrite Hmut. by rewrite release_acquire. }
  split_and!; [done | done | by rewrite Hpatch].
Qed.

(** *** Running [ensureClusterMsiCertificate] *)

Lemma filter_calls_snoc (f : Call → bool) (l : list Call) (c : Call) :
  filter (λ c, f c = true) (l ++ [c])%list
  = (filter (λ c, f c = true) l ++ (if f c then [c] else []))%list.
Proof.
  rewrite filter_app. f_equal. rewrite filter_cons, filter_nil.
  destruct (f c); by case_decide.
Qed.

Lemma writes_record c r w : writes (record c r w) = (writes w ++ (if is_write c then [c] else []))%list.
Proof. apply filter_calls_snoc. Qed.

Lemma fetches_record c r w : fetches (record c r w) = (fetches w ++ (if is_fetch c then [c] else []))%list.
Proof. apply filter_calls_snoc. Qed.

Lemma patches_record c r w : patches (record c r w) = (patches w ++ (if is_patch c then [c] else []))%list.
Proof. apply filter_calls_snoc. Qed.

Lemma clusterMsiSecretName_run m w d rid :
  doc m = Some d →
  ClusterMsiResourceId (api.doc_OpenShiftCluster d) = inr rid →
  clusterMsiSecretName m w = (Returned (inr (api.ID d ++ "-" ++ arm.Name rid)), m, w).
Proof.
  intros Hdoc Hrid. unfold clusterMsiSecretName, bind_err, bind, m_doc, ret.
  by rewrite Hdoc, Hrid.
Qed.

(** [lookup_is_fatal] lets through the azcore response error with status 404
    and nothing else. *)
Lemma lookup_is_fatal_false err :
  lookup_is_fatal err = false ↔ ∃ detail, err = ResponseError http.StatusNotFound detail.
Proof.
  unfold lookup_is_fatal, http.StatusNotFound. split.
  - destruct err as [| | |code detail|]; simpl; try done.
    intros Hcode%negb_false_iff%Z.eqb_eq. subst. eauto.
  - by intros [detail ->].
Qed.

(** The function up to and including the lookup. *)
Lemma ensure_lookup_run m w d rid found r :
  doc m = Some d →
  ClusterMsiResourceId (api.doc_OpenShiftCluster d) = inr rid →
  let secretName := api.ID d ++ "-" ++ arm.Name rid in
  keyvault_get secretName (remote w) = (found, r) →
  let w1 := record (call_GetCredentialsObject secretName) r w in
  match found with
  | inr _ => ensureClusterMsiCertificate m w = (Returned None, m, w1)
  | inl err =>
      lookup_is_fatal err = true →
      ensureClusterMsiCertificate m w = (Returned (Some err), m, w1)
  end.
Proof.
  intros Hdoc Hrid secretName Hget w1.
  unfold ensureClusterMsiCertificate, bind_err, bind.
  rewrite (clusterMsiSecretName_run m w d rid Hdoc Hrid).
  unfold clusterMsiKeyVaultStore_GetCredentialsObject, external.
  fold secretName. rewrite Hget. unfold ret.
  destruct found as [err|payload]; [|done].
  by intros ->.
Qed.

(** The creation path, step by step: what the function returns and leaves
    behind once the lookup has answered "not found". *)
Lemma ensure_creation_run m w d rid detail r1 :
  doc m = Some d →
  ClusterMsiResourceId (api.doc_OpenShiftCluster d) = inr rid →
  let secretName := api.ID d ++ "-" ++ arm.Name rid in
  keyvault_get secretName (remote w) = (inl (ResponseError http.StatusNotFound detail), r1) →
  let w1 := record (call_GetCredentialsObject secretName) r1 w in
  let request := msiRequest d rid in
  ensureClusterMsiCertificate m w =
    match dataplane_get request r1 with
    | (inl err, r2) =>
        (Returned (Some err), m, record (call_GetUserAssignedIdentities request) r2 w1)
    | (inr msiCredObj, r2) =>
        let w2 := record (call_GetUserAssignedIdentities request) r2 w1 in
        let w3 := record call_Now (clock r2).2 w2 in
        let now := (clock r2).1 in
        match expirationDate (env.FeatureIsSet (env m) env.FeatureUseMockMsiRp)
                now msiCredObj with
        | inl err => (Returned (Some err), m, w3)
        | inr expires =>
            let properties :=
              {| store.Enabled := true; store.Expires := expires;
                 store.Name := secretName; store.NotBefore := now |} in
            let payload := dataplane.CredentialsObject msiCredObj in
            (Returned (keyvault_set properties payload (clock r2).2).1, m,
             record (call_SetCredentialsObject properties payload)
                    (keyvault_set properties payload (clock r2).2).2 w3)
        end
    end.
Proof.
  intros Hdoc Hrid secretName Hget w1 request.
  unfold ensureClusterMsiCertificate, bind_err, bind.
  rewrite (clusterMsiSecretName_run m w d rid Hdoc Hrid).
  unfold clusterMsiKeyVaultStore_GetCredentialsObject, external.
  fold secretName. rewrite Hget.
  rewrite (proj2 (lookup_is_fatal_false _)) by eauto.
  unfold m_doc, m_env, ret, time_Now,
    msiDataplane_GetUserAssignedIdentities,
    clusterMsiKeyVaultStore_SetCredentialsObject, external.
  rewrite Hdoc, Hrid. fold request. cbn [record remote].
  destruct (dataplane_get request r1) as [[err|msiCredObj] r2]; [done|].
  cbn [record remote]. destruct (clock r2) as [now r3]. cbn [fst snd record remote].
  destruct (expirationDate _ now msiCredObj) as [err|expires]; [done|].
  change (remote (record call_Now r3 _)) with r3.
  by destruct (keyvault_set _ _ r3) as [res r4].
Qed.

(** *** Claims about [ensureClusterMsiCertificate] *)

(** C4.  Whenever the key vault lookup of the secret name succeeds,
    [ensureClusterMsiCertificate] returns nil at once: the lookup is the only
    call it makes, so the identity service is not asked and nothing is written
    to the vault; the manager and the database are untouched. *)
Theorem ensure_existing_secret_is_noop m w d rid payload r :
  doc m = Some d →
  ClusterMsiResourceId (api.doc_OpenShiftCluster d) = inr rid →
  let secretName := api.ID d ++ "-" ++ arm.Name rid in
  keyvault_get secretName (remote w) = (inr payload, r) →
  let w' := record (call_GetCredentialsObject secretName) r w in
  ensureClusterMsiCertificate m w = (Returned None, m, w') ∧
  calls w' = (calls w ++ [call_GetCredentialsObject secretName])%list ∧
  fetches w' = fetches w ∧
  writes w' = writes w ∧
  database w' = database w.
Proof.
  intros Hdoc Hrid secretName Hget w'.
  pose proof (ensure_lookup_run m w d rid _ r Hdoc Hrid Hget) as Hrun. simpl in Hrun.
  split_and!; [done | done | | | done].
  - unfold w'. rewrite fetches_record. apply app_nil_r.
  - unfold w'. rewrite writes_record. apply app_nil_r.
Qed.

(** C5.  A failed lookup leads to the creation path only when the error is an
    azcore response error with status 404, in which case the next call is the
    fetch from the identity service.  Any other lookup error, whatever its
    kind, ends the function: it is returned as it is, and neither a fetch nor
    a write is made. *)
Theorem ensure_lookup_error_dispatch m w d rid err r :
  doc m = Some d →
  ClusterMsiResourceId (api.doc_OpenShiftCluster d) = inr rid →
  let secretName := api.ID d ++ "-" ++ arm.Name rid in
  keyvault_get secretName (remote w) = (inl err, r) →
  let w1 := record (call_GetCredentialsObject secretName) r w in
  ((∀ detail, err ≠ ResponseError http.StatusNotFound detail) →
     ensureClusterMsiCertificate m w = (Returned (Some err), m, w1) ∧
     fetches w1 = fetches w ∧ writes w1 = writes w) ∧
  ((∃ detail, err = ResponseError http.StatusNotFound detail) →
     ∃ later,
       calls (ensureClusterMsiCertificate m w).2 =
         (calls w ++ call_GetCredentialsObject secretName
                  :: call_GetUserAssignedIdentities (msiRequest d rid) :: later)%list).
Proof.
  intros Hdoc Hrid secretName Hget w1. split.
  - intros Hother.
    assert (lookup_is_fatal err = true) as Hfatal.
    { destruct (lookup_is_fatal err) eqn:Hf; [done|].
      apply lookup_is_fatal_false in Hf as [detail ->]. by destruct (Hother detail). }
    pose proof (ensure_lookup_run m w d rid _ r Hdoc Hrid Hget) as Hrun. simpl in Hrun.
    split_and!; [by apply Hrun | |].
    + unfold w1. rewrite fetches_record. apply app_nil_r.
    + unfold w1. rewrite writes_record. apply app_nil_r.
  - intros [detail ->].
    rewrite (ensure_creation_run m w d rid detail r Hdoc Hrid Hget). fold secretName.
    destruct (dataplane_get (msiRequest d rid) r) as [[e|msiCredObj] r2].
    + exists []. cbn [snd record calls]. by rewrite <- app_assoc.
    + cbn zeta.
      destruct (expirationDate _ _ msiCredObj) as [e|expires]; eexists;
        cbn [snd record calls]; rewrite <- !app_assoc; done.
Qed.

(** C6.  On the creation path in mock mode (lookup answered 404, the fetch
    returned, the mock flag is set) the function asks the identity service
    once, reads the clock once and writes to the vault once.  The written
    properties have [Enabled] true, [NotBefore] equal to the instant read from
    the clock, and [Expires] equal to that same instant moved forward by
    [AddDate(0, 0, 90)]. *)
Theorem ensure_mock_creation m w d rid detail r1 msiCredObj r2 :
  doc m = Some d →
  ClusterMsiResourceId (api.doc_OpenShiftCluster d) = inr rid →
  let secretName := api.ID d ++ "-" ++ arm.Name rid in
  keyvault_get secretName (remote w) = (inl (ResponseError http.StatusNotFound detail), r1) →
  dataplane_get (msiRequest d rid) r1 = (inr msiCredObj, r2) →
  env.FeatureIsSet (env m) env.FeatureUseMockMsiRp = true →
  ∃ properties payload result w',
    ensureClusterMsiCertificate m w = (Returned result, m, w') ∧
    calls w' = (calls w ++ [call_GetCredentialsObject secretName;
                            call_GetUserAssignedIdentities (msiRequest d rid);
                            call_Now;
                            call_SetCredentialsObject properties payload])%list ∧
    fetches w' = (fetches w ++ [call_GetUserAssignedIdentities (msiRequest d rid)])%list ∧
    writes w' = (writes w ++ [call_SetCredentialsObject properties payload])%list ∧
    store.NotBefore properties = (clock r2).1 ∧
    store.Expires properties = AddDate (store.NotBefore properties) 0 0 90 ∧
    store.Enabled properties = true ∧
    store.Name properties = secretName ∧
    payload = dataplane.CredentialsObject msiCredObj.
Proof.
  intros Hdoc Hrid secretName Hget Hfetch Hmock.
  pose proof (ensure_creation_run m w d rid detail r1 Hdoc Hrid Hget) as Hrun.
  cbv zeta in Hrun. fold secretName in Hrun. rewrite Hfetch, Hmock in Hrun.
  unfold expirationDate in Hrun. cbn iota in Hrun.
  eexists _, _, _, _. split; [exact Hrun|].
  rewrite !writes_record, !fetches_record. cbn [is_write is_fetch record calls].
  rewrite !app_nil_r, <- !app_assoc. split_and!; done.
Qed.

(** C7.  On the creation path in real mode (mock flag not set) with an
    identity record extracted from the response: if [NotAfter] is present and
    parses under the RFC 3339 layout, exactly one write is made and its
    [Expires] is the parsed instant; if [NotAfter] is nil, or does not parse,
    the function returns an error and writes nothing. *)
Theorem ensure_real_creation m w d rid detail r1 msiCredObj r2 identity :
  doc m = Some d →
  ClusterMsiResourceId (api.doc_OpenShiftCluster d) = inr rid →
  let secretName := api.ID d ++ "-" ++ arm.Name rid in
  keyvault_get secretName (remote w) = (inl (ResponseError http.StatusNotFound detail), r1) →
  dataplane_get (msiRequest d rid) r1 = (inr msiCredObj, r2) →
  env.FeatureIsSet (env m) env.FeatureUseMockMsiRp = false →
  getSingleExplicitIdentity msiCredObj = inr identity →
  (∀ notAfter instant,
     swagger.NotAfter identity = Some notAfter →
     Parse RFC3339 notAfter = inr instant →
     ∃ properties result w',
       ensureClusterMsiCertificate m w = (Returned result, m, w') ∧
       writes w' = (writes w ++
         [call_SetCredentialsObject properties (dataplane.CredentialsObject msiCredObj)])%list ∧
       store.Expires properties = instant ∧
       store.NotBefore properties = (clock r2).1 ∧
       store.Enabled properties = true ∧
       store.Name properties = secretName) ∧
  (swagger.NotAfter identity = None →
     ∃ w',
       ensureClusterMsiCertificate m w =
         (Returned (Some (errors_New "unable to pull NotAfter from the MSI CredentialsObject")),
          m, w') ∧
       writes w' = writes w) ∧
  (∀ notAfter err,
     swagger.NotAfter identity = Some notAfter →
     Parse RFC3339 notAfter = inl err →
     ∃ w',
       ensureClusterMsiCertificate m w = (Returned (Some err), m, w') ∧
       writes w' = writes w).
Proof.
  intros Hdoc Hrid secretName Hget Hfetch Hreal Hidentity.
  pose proof (ensure_creation_run m w d rid detail r1 Hdoc Hrid Hget) as Hrun.
  cbv zeta in Hrun. fold secretName in Hrun. rewrite Hfetch, Hreal in Hrun.
  unfold expirationDate in Hrun. rewrite Hidentity in Hrun. cbn iota in Hrun.
  split_and!.
  - intros notAfter instant HnotAfter Hparse. rewrite HnotAfter, Hparse in Hrun.
    eexists _, _, _. split; [exact Hrun|].
    rewrite !writes_record. cbn [is_write]. rewrite !app_nil_r. done.
  - intros HnotAfter. rewrite HnotAfter in Hrun.
    eexists. split; [exact Hrun|].
    rewrite !writes_record. cbn [is_write]. by rewrite !app_nil_r.
  - intros notAfter err HnotAfter Hparse. rewrite HnotAfter, Hparse in Hrun.
    eexists. split; [exact Hrun|].
    rewrite !writes_record. cbn [is_write]. by rewrite !app_nil_r.
Qed.

(** C9.  In mock mode the fetched response is not examined: whatever its
    [ExplicitIdentities] (nil, empty, a leading nil pointer, or Sample.populated),
    the expiration is computed from the clock alone, the raw credentials
    object is written to the vault, and what the function returns is what
    that write returned, so [errClusterMsiNotPresentInResponse] is never
    produced by the function itself. *)
Theorem ensure_mock_ignores_explicit_identities m w d rid detail r1 msiCredObj r2 :
  doc m = Some d →
  ClusterMsiResourceId (api.doc_OpenShiftCluster d) = inr rid →
  let secretName := api.ID d ++ "-" ++ arm.Name rid in
  keyvault_get secretName (remote w) = (inl (ResponseError http.StatusNotFound detail), r1) →
  dataplane_get (msiRequest d rid) r1 = (inr msiCredObj, r2) →
  env.FeatureIsSet (env m) env.FeatureUseMockMsiRp = true →
  let now := (clock r2).1 in
  let properties :=
    {| store.Enabled := true; store.Expires := AddDate now 0 0 mockMsiCertValidityDays;
       store.Name := secretName; store.NotBefore := now |} in
  let payload := dataplane.CredentialsObject msiCredObj in
  let written := keyvault_set properties payload (clock r2).2 in
  expirationDate true now msiCredObj = inr (AddDate now 0 0 mockMsiCertValidityDays) ∧
  (ensureClusterMsiCertificate m w).1 = (Returned written.1, m) ∧
  last (calls (ensureClusterMsiCertificate m w).2) =
    Some (call_SetCredentialsObject properties payload) ∧
  remote (ensureClusterMsiCertificate m w).2 = written.2 ∧
  (written.1 ≠ Some errClusterMsiNotPresentInResponse →
   (ensureClusterMsiCertificate m w).1
     ≠ (Returned (Some errClusterMsiNotPresentInResponse), m)).
Proof.
  intros Hdoc Hrid secretName Hget Hfetch Hmock now properties payload written.
  pose proof (ensure_creation_run m w d rid detail r1 Hdoc Hrid Hget) as Hrun.
  cbv zeta in Hrun. fold secretName in Hrun. rewrite Hfetch, Hmock in Hrun.
  unfold expirationDate in Hrun. cbn iota in Hrun.
  fold now properties payload written in Hrun. rewrite Hrun.
  split_and!; [done | done | | done |].
  - cbn [snd record calls]. apply last_snoc.
  - cbn [fst]. intros Hne [= Heq]. by rewrite Heq in Hne.
Qed.

(** *** Claims about [clusterIdentityIDs] *)

(** C8.  For a document whose cluster does not use workload identity,
    [clusterIdentityIDs] returns the error "clusterIdentityIDs called for CSP
    cluster" straight away: no call is made (no fetch, no patch), and the
    manager, the database and every service are as they were. *)
Theorem clusterIdentityIDs_requires_workload_identity m w d :
  doc m = Some d →
  UsesWorkloadIdentity (api.doc_OpenShiftCluster d) = false →
  clusterIdentityIDs m w =
    (Returned (Some (fmt_Errorf "clusterIdentityIDs called for CSP cluster")), m, w).
Proof.
  intros Hdoc Hkind. unfold clusterIdentityIDs, bind, m_doc, ret.
  by rewrite Hdoc, Hkind.
Qed.

(** X20.  Past the guard, with a fetched identity that has both IDs: one
    fetch, then one patch of the document under [m.doc.Key] with the mutation
    above closed over those IDs; the error returned is the patch's, and
    [m.doc] becomes what the patch returned. *)
Lemma clusterIdentityIDs_run m w d rid msiCredObj r identity clientID objectID :
  doc m = Some d →
  UsesWorkloadIdentity (api.doc_OpenShiftCluster d) = true →
  ClusterMsiResourceId (api.doc_OpenShiftCluster d) = inr rid →
  dataplane_get (msiRequest d rid) (remote w) = (inr msiCredObj, r) →
  getSingleExplicitIdentity msiCredObj = inr identity →
  swagger.ClientID identity = Some clientID →
  swagger.ObjectID identity = Some objectID →
  let patched :=
    Database.PatchWithLease interim (api.Key d)
      (clusterIdentityIDs_mutate rid clientID objectID) (database w) in
  clusterIdentityIDs m w =
    (Returned patched.1.2, set_doc patched.1.1 m,
     {| remote := r; database := patched.2;
        calls := (calls w ++ [call_GetUserAssignedIdentities (msiRequest d rid);
                              call_PatchWithLease (api.Key d)])%list |}).
Proof.
  intros Hdoc Hkind Hrid Hfetch Hidentity HclientID HobjectID patched.
  unfold clusterIdentityIDs, bind_err, bind, m_doc, ret,
    msiDataplane_GetUserAssignedIdentities, external, db_PatchWithLease, assign_doc.
  rewrite Hdoc, Hkind. cbn [negb]. rewrite Hrid, Hfetch, Hidentity, HclientID, HobjectID.
  cbn [record remote database calls]. fold patched.
  destruct patched as [[newdoc err] db']. cbn [fst snd]. by rewrite <- app_assoc.
Qed.

End Properties.

(** ** Further properties *)

(** *** Strings *)

Lemma list_ascii_of_string_app (s t : string) :
  list_ascii_of_string (s ++ t) = (list_ascii_of_string s ++ list_ascii_of_string t)%list.
Proof. induction s as [|c s IH]; simpl; [done | by rewrite IH]. Qed.

Lemma list_ascii_of_string_inj (s t : string) :
  list_ascii_of_string s = list_ascii_of_string t → s = t.
Proof.
  intros Heq.
  by rewrite <- (string_of_list_ascii_of_string s), Heq, string_of_list_ascii_of_string.
Qed.

Lemma length_list_ascii_of_string (s : string) :
  List.length (list_ascii_of_string s) = String.length s.
Proof. induction s as [|c s IH]; simpl; congruence. Qed.

(** Two concatenations that agree split alike as soon as their left parts, or
    their right parts, have the same length. *)
Lemma string_app_inj_left (s1 s2 t1 t2 : string) :
  String.length s1 = String.length s2 → s1 ++ t1 = s2 ++ t2 → s1 = s2 ∧ t1 = t2.
Proof.
  intros Hlen Heq. apply (f_equal list_ascii_of_string) in Heq.
  rewrite !list_ascii_of_string_app in Heq.
  apply app_inj_1 in Heq as [H1 H2]; [|by rewrite !length_list_ascii_of_string].
  split; by apply list_ascii_of_string_inj.
Qed.

Lemma string_app_inj_right (s1 s2 t1 t2 : string) :
  String.length t1 = String.length t2 → s1 ++ t1 = s2 ++ t2 → s1 = s2 ∧ t1 = t2.
Proof.
  intros Hlen Heq. apply (f_equal list_ascii_of_string) in Heq.
  rewrite !list_ascii_of_string_app in Heq.
  apply app_inj_2 in Heq as [H1 H2]; [|by rewrite !length_list_ascii_of_string].
  split; by apply list_ascii_of_string_inj.
Qed.

(** The last characters of a concatenation are those of its right part. *)
Lemma rev_string_app (s t : string) :
  rev (list_ascii_of_string (s ++ t))
  = (rev (list_ascii_of_string t) ++ rev (list_ascii_of_string s))%list.
Proof. by rewrite list_ascii_of_string_app, rev_app_distr. Qed.

(** Unfold a manager method down to the handlers it calls. *)
Ltac run_manager :=
  unfold ensureClusterMsiCertificate, clusterIdentityIDs, initializeClusterMsiClients,
    fixupClusterMsiTenantID, clusterMsiSecretName, bind_err, bind, ret, m_doc, m_env,
    time_Now, assign_doc, clusterMsiKeyVaultStore_GetCredentialsObject,
    clusterMsiKeyVaultStore_SetCredentialsObject, msiDataplane_GetUserAssignedIdentities,
    db_PatchWithLease, external, failWith, fallible_error, fallible_pair, fallible_keep.

Section MoreProperties.
Context `{Rt : GoRuntime} `{Api : ApiMethods} `{Svc : !Services} `{Lib : ClientLibraries}.

Implicit Types (d : api.OpenShiftClusterDocument) (m : manager) (w : World).
Implicit Types (ids : gmap string api.UserAssignedIdentity).
Implicit Types (rid : arm.ResourceID) (k clientID objectID : string).
Implicit Types (sub : subscription.SubscriptionDocument).

(** *** The mutation of [clusterIdentityIDs], continued *)

(** X1.  The mutation returns nil exactly when some key of the map folds to the
    identifier.  When it does not, the error is the "no entries found" one and
    the copy it was given is handed back untouched. *)
Theorem mutate_succeeds_iff rid clientID objectID d :
  ((clusterIdentityIDs_mutate rid clientID objectID d).2 = None ↔
     ∃ k, k ∈ dom (api.identities d) ∧ EqualFold k (arm.String rid) = true) ∧
  ((clusterIdentityIDs_mutate rid clientID objectID d).2 ≠ None →
     clusterIdentityIDs_mutate rid clientID objectID d =
       (d, Some (fmt_Errorf "no entries found matching clusterMsiResourceId"))).
Proof.
  destruct (decide (∃ k v, api.identities d !! k = Some v ∧
                           EqualFold k (arm.String rid) = true)) as [Hsome|Hnone].
  - destruct Hsome as (k0 & v0 & Hk0 & Hfold).
    destruct (mutate_match rid clientID objectID d k0 v0 Hk0 Hfold) as (k & v & Hk & ? & ->).
    split; [|done]. split; [|done]. intros _. exists k. split; [|done].
    apply elem_of_dom; eauto.
  - assert (∀ k v, api.identities d !! k = Some v → EqualFold k (arm.String rid) = false)
      as Hall.
    { intros k v Hk. destruct (EqualFold k (arm.String rid)) eqn:Hfold; [|done].
      destruct Hnone; eauto. }
    rewrite (mutate_no_match rid clientID objectID d Hall). split; [|done].
    split; [done|]. intros (k & [v Hk]%elem_of_dom & Hfold).
    rewrite (Hall k v Hk) in Hfold. done.
Qed.

(** X2.  When exactly one key folds to the identifier, the outcome does not
    depend on the order in which [range] visits the map: the result is the
    document with that key rebound to the two fetched values. *)
Theorem mutate_unique_match rid clientID objectID d k0 (v0 : api.UserAssignedIdentity) :
  api.identities d !! k0 = Some v0 →
  EqualFold k0 (arm.String rid) = true →
  (∀ k, k ∈ dom (api.identities d) → EqualFold k (arm.String rid) = true → k = k0) →
  clusterIdentityIDs_mutate rid clientID objectID d =
    (api.set_identities
       (<[k0 := {| api.ClientID := clientID; api.PrincipalID := objectID |}]>
          (api.identities d)) d,
     None).
Proof.
  intros Hk0 Hfold Honly.
  destruct (mutate_match rid clientID objectID d k0 v0 Hk0 Hfold) as (k & v & Hk & Hkfold & ->).
  rewrite (Honly k); [done | by apply elem_of_dom; eauto | done].
Qed.

(** X3.  With a single matching key the mutation is idempotent: run on its own
    result, with the same values, it succeeds and changes nothing. *)
Theorem mutate_idempotent rid clientID objectID d k0 (v0 : api.UserAssignedIdentity) :
  api.identities d !! k0 = Some v0 →
  EqualFold k0 (arm.String rid) = true →
  (∀ k, k ∈ dom (api.identities d) → EqualFold k (arm.String rid) = true → k = k0) →
  let once := (clusterIdentityIDs_mutate rid clientID objectID d).1 in
  clusterIdentityIDs_mutate rid clientID objectID once = (once, None).
Proof.
  intros Hk0 Hfold Honly once. unfold once.
  rewrite (mutate_unique_match rid clientID objectID d k0 v0 Hk0 Hfold Honly). cbn [fst].
  set (new := {| api.ClientID := clientID; api.PrincipalID := objectID |}).
  rewrite (mutate_unique_match rid clientID objectID _ k0 new).
  - rewrite identities_set_identities, insert_insert_eq. done.
  - rewrite identities_set_identities. apply lookup_insert_eq.
  - done.
  - intros k. rewrite identities_set_identities, dom_insert_lookup_L by eauto. apply Honly.
Qed.

(** *** The mutation of [fixupClusterMsiTenantID] *)

(** X4.  The tenant fix-up never fails; afterwards the identity's tenant is the
    subscription's, the user-assigned identities and every other field are as
    before, and a second application changes nothing. *)
Theorem fixup_mutate_spec sub d :
  let tenant :=
    subscription.TenantID (subscription.Properties (subscription.doc_Subscription sub)) in
  let d' := (fixupClusterMsiTenantID_mutate sub d).1 in
  (fixupClusterMsiTenantID_mutate sub d).2 = None ∧
  api.TenantID (api.Identity (api.doc_OpenShiftCluster d')) = tenant ∧
  api.identities d' = api.identities d ∧
  api.IdentityURL (api.Identity (api.doc_OpenShiftCluster d')) =
    api.IdentityURL (api.Identity (api.doc_OpenShiftCluster d)) ∧
  api.identity_other (api.Identity (api.doc_OpenShiftCluster d')) =
    api.identity_other (api.Identity (api.doc_OpenShiftCluster d)) ∧
  api.cluster_other (api.doc_OpenShiftCluster d') =
    api.cluster_other (api.doc_OpenShiftCluster d) ∧
  api.ID d' = api.ID d ∧ api.Key d' = api.Key d ∧ api.doc_other d' = api.doc_other d ∧
  fixupClusterMsiTenantID_mutate sub d' = (d', None) ∧
  (api.TenantID (api.Identity (api.doc_OpenShiftCluster d)) = tenant → d' = d).
Proof.
  intros tenant d'. split_and!; try done.
  intros Hsame. unfold d', fixupClusterMsiTenantID_mutate, set_TenantID. cbn [fst].
  fold tenant. rewrite <- Hsame. by destruct d as [? ? [[] ?] ?].
Qed.


(** *** [ensureClusterMsiCertificate], over all of its paths *)

(** X7.  Whatever the collaborators answer, [ensureClusterMsiCertificate]
    leaves the manager (and so [m.doc]) and the document database as they
    were, and never asks for a patch: its effects are confined to the
    services it calls. *)
Theorem ensure_leaves_document_alone m w :
  (ensureClusterMsiCertificate m w).1.2 = m ∧
  database (ensureClusterMsiCertificate m w).2 = database w ∧
  patches (ensureClusterMsiCertificate m w).2 = patches w.
Proof.
  run_manager. unfold patches.
  repeat case_match; simplify_eq; cbn [fst snd record database calls];
    rewrite ?filter_calls_snoc; cbn [is_patch]; rewrite ?app_nil_r; done.
Qed.

(** X8.  The calls one run of [ensureClusterMsiCertificate] makes are always an
    initial part of: lookup, fetch, clock, write.  In particular there is at
    most one of each, a write is never made without the fetch before it, and
    the secret is written under the very name that was looked up. *)
Theorem ensure_call_shape m w :
  ∃ new,
    calls (ensureClusterMsiCertificate m w).2 = (calls w ++ new)%list ∧
    (new = [] ∨
     ∃ name,
       new = [call_GetCredentialsObject name] ∨
       ∃ request,
         new = [call_GetCredentialsObject name; call_GetUserAssignedIdentities request] ∨
         new = [call_GetCredentialsObject name; call_GetUserAssignedIdentities request;
                call_Now] ∨
         ∃ properties payload,
           new = [call_GetCredentialsObject name; call_GetUserAssignedIdentities request;
                  call_Now; call_SetCredentialsObject properties payload] ∧
           store.Name properties = name ∧
           store.Enabled properties = true).
Proof.
  run_manager.
  repeat case_match; simplify_eq; cbn [fst snd record calls]; rewrite <- ?app_assoc;
    cbn [app]; (eexists; split; [first [reflexivity | symmetry; apply app_nil_r]|]);
    first [ by left
          | by right; eexists; left
          | by right; eexists; right; eexists; left
          | by right; eexists; right; eexists; right; left
          | right; eexists; right; eexists; right; right; by eexists _, _ ].
Qed.

(** X9.  A nil result means the secret is in place: either the lookup found it,
    or this very call wrote it, under the name that was looked up, and the
    write returned nil. *)
Theorem ensure_nil_means_secret_present m w :
  (ensureClusterMsiCertificate m w).1.1 = Returned None →
  ∃ name,
    clusterMsiSecretName m w = (Returned (inr name), m, w) ∧
    ((∃ payload r, keyvault_get name (remote w) = (inr payload, r)) ∨
     (∃ properties payload r,
        writes (ensureClusterMsiCertificate m w).2
          = (writes w ++ [call_SetCredentialsObject properties payload])%list ∧
        store.Name properties = name ∧
        keyvault_set properties payload r
          = (None, remote (ensureClusterMsiCertificate m w).2))).
Proof.
  run_manager. unfold writes.
  repeat case_match; simplify_eq; cbn [fst snd record calls remote];
    intros ?; simplify_eq; (eexists; split; [reflexivity|]).
  - right. eexists _, _, _. split_and!; cycle 2; [eassumption | | reflexivity].
    rewrite !filter_calls_snoc. cbn [is_write]. by rewrite !app_nil_r.
  - left. eauto.
Qed.

(** X10.  When the cluster MSI resource identifier cannot be determined, the
    secret name, the certificate step, the client initialization and the
    identity reconciliation all return that error without making any call. *)
Theorem resource_id_error_stops_every_method m w d err clients sub :
  doc m = Some d →
  ClusterMsiResourceId (api.doc_OpenShiftCluster d) = inl err →
  clusterMsiSecretName m w = (Returned (inl err), m, w) ∧
  ensureClusterMsiCertificate m w = (Returned (Some err), m, w) ∧
  initializeClusterMsiClients clients sub m w = (Returned (Some err, clients), m, w) ∧
  (UsesWorkloadIdentity (api.doc_OpenShiftCluster d) = true →
   clusterIdentityIDs m w = (Returned (Some err), m, w)).
Proof.
  intros Hdoc Hrid. run_manager. rewrite Hdoc, Hrid. split_and!; try done.
  by intros ->.
Qed.

(** X11.  If the identity service fails on the creation path, its error is
    returned as it is: the clock is not read and nothing is written. *)
Theorem ensure_fetch_error m w d rid detail r1 err r2 :
  doc m = Some d →
  ClusterMsiResourceId (api.doc_OpenShiftCluster d) = inr rid →
  let secretName := api.ID d ++ "-" ++ arm.Name rid in
  keyvault_get secretName (remote w) = (inl (ResponseError http.StatusNotFound detail), r1) →
  dataplane_get (msiRequest d rid) r1 = (inl err, r2) →
  ensureClusterMsiCertificate m w =
    (Returned (Some err), m,
     record (call_GetUserAssignedIdentities (msiRequest d rid)) r2
       (record (call_GetCredentialsObject secretName) r1 w)) ∧
  writes (ensureClusterMsiCertificate m w).2 = writes w.
Proof.
  intros Hdoc Hrid secretName Hget Hfetch.
  pose proof (ensure_creation_run m w d rid detail r1 Hdoc Hrid Hget) as Hrun.
  cbv zeta in Hrun. fold secretName in Hrun. rewrite Hfetch in Hrun.
  rewrite Hrun. split; [done|]. cbn [snd].
  rewrite !writes_record. cbn [is_write]. by rewrite !app_nil_r.
Qed.

(** X12.  In real mode a response from which no identity can be extracted
    makes the function return [errClusterMsiNotPresentInResponse]; by then the
    clock has been read, but nothing is written. *)
Theorem ensure_real_mode_without_identity m w d rid detail r1 msiCredObj r2 err :
  doc m = Some d →
  ClusterMsiResourceId (api.doc_OpenShiftCluster d) = inr rid →
  let secretName := api.ID d ++ "-" ++ arm.Name rid in
  keyvault_get secretName (remote w) = (inl (ResponseError http.StatusNotFound detail), r1) →
  dataplane_get (msiRequest d rid) r1 = (inr msiCredObj, r2) →
  env.FeatureIsSet (env m) env.FeatureUseMockMsiRp = false →
  getSingleExplicitIdentity msiCredObj = inl err →
  err = errClusterMsiNotPresentInResponse ∧
  (ensureClusterMsiCertificate m w).1 = (Returned (Some err), m) ∧
  calls (ensureClusterMsiCertificate m w).2 =
    (calls w ++ [call_GetCredentialsObject secretName;
                 call_GetUserAssignedIdentities (msiRequest d rid); call_Now])%list ∧
  writes (ensureClusterMsiCertificate m w).2 = writes w.
Proof.
  intros Hdoc Hrid secretName Hget Hfetch Hreal Hnone.
  pose proof (ensure_creation_run m w d rid detail r1 Hdoc Hrid Hget) as Hrun.
  cbv zeta in Hrun. fold secretName in Hrun. rewrite Hfetch, Hreal in Hrun.
  unfold expirationDate in Hrun. rewrite Hnone in Hrun. rewrite Hrun.
  split_and!; [| done | |].
  - unfold getSingleExplicitIdentity in Hnone. by repeat case_match; simplify_eq.
  - cbn [snd record calls]. by rewrite <- !app_assoc.
  - cbn [snd]. rewrite !writes_record. cbn [is_write]. by rewrite !app_nil_r.
Qed.

(** *** [clusterIdentityIDs], over all of its paths *)

(** X13.  One run of [clusterIdentityIDs] makes no call at all, or one fetch,
    or one fetch followed by one patch of the document under [m.doc.Key]; it
    never uses the key vault or the clock.  Unless the patch is reached, the
    manager and the database are as before. *)
Theorem clusterIdentityIDs_call_shape m w :
  let after := clusterIdentityIDs m w in
  (calls after.2 = calls w ∧ after.1.2 = m ∧ after.2 = w) ∨
  (∃ request,
     calls after.2 = (calls w ++ [call_GetUserAssignedIdentities request])%list ∧
     after.1.2 = m ∧ database after.2 = database w) ∨
  (∃ request d,
     doc m = Some d ∧
     calls after.2 = (calls w ++ [call_GetUserAssignedIdentities request;
                                  call_PatchWithLease (api.Key d)])%list).
Proof.
  run_manager.
  repeat case_match; simplify_eq; cbn [fst snd record calls database];
    rewrite <- ?app_assoc; cbn [app];
    first [ by left | by right; left; eexists | by right; right; eexists _, _ ].
Qed.

(** X14.  If the identity service fails, [clusterIdentityIDs] returns its error
    as it is and does not patch: manager and database are untouched. *)
Theorem clusterIdentityIDs_fetch_error m w d rid err r :
  doc m = Some d →
  UsesWorkloadIdentity (api.doc_OpenShiftCluster d) = true →
  ClusterMsiResourceId (api.doc_OpenShiftCluster d) = inr rid →
  dataplane_get (msiRequest d rid) (remote w) = (inl err, r) →
  clusterIdentityIDs m w =
    (Returned (Some err), m, record (call_GetUserAssignedIdentities (msiRequest d rid)) r w).
Proof.
  intros Hdoc Hkind Hrid Hfetch. run_manager.
  rewrite Hdoc, Hkind. cbn [negb]. by rewrite Hrid, Hfetch.
Qed.

(** X15.  A response without a usable identity stops [clusterIdentityIDs]
    before the patch: with no identity to extract the extraction error is
    returned, and with an identity lacking its client ID or its object ID the
    "unable to pull clientID and objectID" error is. *)
Theorem clusterIdentityIDs_incomplete_identity m w d rid msiCredObj r :
  doc m = Some d →
  UsesWorkloadIdentity (api.doc_OpenShiftCluster d) = true →
  ClusterMsiResourceId (api.doc_OpenShiftCluster d) = inr rid →
  dataplane_get (msiRequest d rid) (remote w) = (inr msiCredObj, r) →
  let w' := record (call_GetUserAssignedIdentities (msiRequest d rid)) r w in
  (∀ err, getSingleExplicitIdentity msiCredObj = inl err →
     clusterIdentityIDs m w = (Returned (Some err), m, w')) ∧
  (∀ identity,
     getSingleExplicitIdentity msiCredObj = inr identity →
     swagger.ClientID identity = None ∨ swagger.ObjectID identity = None →
     clusterIdentityIDs m w =
       (Returned (Some (fmt_Errorf
          "unable to pull clientID and objectID from the MSI CredentialsObject")), m, w')).
Proof.
  intros Hdoc Hkind Hrid Hfetch w'. run_manager.
  rewrite Hdoc, Hkind. cbn [negb]. rewrite Hrid, Hfetch. split.
  - by intros err ->.
  - intros identity -> [->| ->]; [done|]. by destruct (swagger.ClientID identity).
Qed.

(** *** [initializeClusterMsiClients] *)

(** X16.  Client initialization is all or nothing: on an error both client
    fields are what they were on entry, and on success both are set.  On every
    path the manager's document, the database and the services' write, fetch
    and patch logs are untouched. *)
Theorem initialize_all_or_nothing clients sub m w :
  let after := initializeClusterMsiClients clients sub m w in
  after.1.2 = m ∧
  database after.2 = database w ∧
  writes after.2 = writes w ∧ fetches after.2 = fetches w ∧ patches after.2 = patches w ∧
  match after.1.1 with
  | Returned (None, now) =>
      is_Some (clusterMsiFederatedIdentityCredentials now) ∧
      is_Some (userAssignedIdentities now)
  | Returned (Some _, now) => now = clients
  | Panicked => True
  end.
Proof.
  cbv zeta. run_manager. unfold writes, fetches, patches.
  repeat case_match; cbn [fst snd] in *; simplify_eq;
    cbn [fst snd record database calls];
    rewrite ?filter_calls_snoc; cbn [is_write is_fetch is_patch]; rewrite ?app_nil_r;
    split_and!; try done; by eexists.
Qed.

(** X17.  A failed lookup of the stored secret ends client initialization with
    that error, a 404 included: unlike [ensureClusterMsiCertificate] it does
    not fall back to creating the secret, and the lookup is its only call. *)
Theorem initialize_lookup_error clients sub m w d rid err r :
  doc m = Some d →
  ClusterMsiResourceId (api.doc_OpenShiftCluster d) = inr rid →
  let secretName := api.ID d ++ "-" ++ arm.Name rid in
  keyvault_get secretName (remote w) = (inl err, r) →
  initializeClusterMsiClients clients sub m w =
    (Returned (Some err, clients), m, record (call_GetCredentialsObject secretName) r w).
Proof.
  intros Hdoc Hrid secretName Hget. run_manager.
  rewrite Hdoc, Hrid. fold secretName. by rewrite Hget.
Qed.

(** X18.  When client initialization succeeds, the stored secret was found
    under the secret name, a credential for the cluster MSI resource
    identifier was resolved from it, and both clients were built from that one
    credential, the subscription document's ID and the environment's client
    options. *)
Theorem initialize_success clients sub m w now :
  (initializeClusterMsiClients clients sub m w).1.1 = Returned (None, now) →
  ∃ d rid payload r cloud identities credential federated assigned,
    doc m = Some d ∧
    ClusterMsiResourceId (api.doc_OpenShiftCluster d) = inr rid ∧
    keyvault_get (api.ID d ++ "-" ++ arm.Name rid) (remote w) = (inr payload, r) ∧
    CloudNameForMsiDataplane (env m) = inr cloud ∧
    NewUserAssignedIdentities payload cloud = inr identities ∧
    GetCredential identities (arm.String rid) = inr credential ∧
    NewFederatedIdentityCredentialsClient
      (subscription.ID sub) credential (ArmClientOptions (env m)) = inr federated ∧
    NewUserAssignedIdentitiesClient
      (subscription.ID sub) credential (ArmClientOptions (env m)) = inr assigned ∧
    now = {| clusterMsiFederatedIdentityCredentials := Some federated;
             userAssignedIdentities := Some assigned |}.
Proof.
  run_manager.
  repeat case_match; simplify_eq; cbn [fst snd]; intros ?; simplify_eq.
  repeat match goal with
         | H1 : ?x = inr _, H2 : ?x = inr _ |- _ => rewrite H1 in H2; simplify_eq
         end.
  eexists _, _, _, _, _, _, _, _, _. split_and!; first [eassumption | reflexivity].
Qed.

(** *** [clusterMsiSecretName] *)

(** X19.  Among documents whose IDs have the same length, the secret name
    determines both the document ID and the name of the cluster MSI. *)
Theorem secret_name_injective m1 w1 d1 m2 w2 d2 name :
  doc m1 = Some d1 →
  doc m2 = Some d2 →
  String.length (api.ID d1) = String.length (api.ID d2) →
  (clusterMsiSecretName m1 w1).1.1 = Returned (inr name) →
  (clusterMsiSecretName m2 w2).1.1 = Returned (inr name) →
  api.ID d1 = api.ID d2 ∧
  ∃ rid1 rid2,
    ClusterMsiResourceId (api.doc_OpenShiftCluster d1) = inr rid1 ∧
    ClusterMsiResourceId (api.doc_OpenShiftCluster d2) = inr rid2 ∧
    arm.Name rid1 = arm.Name rid2.
Proof.
  intros Hd1 Hd2 Hlen. run_manager. rewrite Hd1, Hd2.
  destruct (ClusterMsiResourceId (api.doc_OpenShiftCluster d1)) as [|rid1]; [done|].
  destruct (ClusterMsiResourceId (api.doc_OpenShiftCluster d2)) as [|rid2]; [done|].
  cbn [fst]. intros [= <-] [= Heq].
  apply string_app_inj_left in Heq as [HID Hname]; [|done].
  split; [done|]. exists rid1, rid2. split_and!; try done.
  by injection Hname.
Qed.

(** *** [fixupClusterMsiTenantID] *)

(** X21.  The tenant fix-up patches the document under [m.doc.Key] exactly
    once and does nothing else: it asks neither the key vault, nor the
    identity service, nor the clock, it does not look at the kind of identity
    the cluster uses, and it returns what the patch returned. *)
Theorem fixup_only_patches sub m w d :
  doc m = Some d →
  let patched :=
    Database.PatchWithLease interim (api.Key d) (fixupClusterMsiTenantID_mutate sub)
      (database w) in
  let after := fixupClusterMsiTenantID sub m w in
  after.1.1 = Returned patched.1.2 ∧
  doc after.1.2 = patched.1.1 ∧
  env after.1.2 = env m ∧
  calls after.2 = (calls w ++ [call_PatchWithLease (api.Key d)])%list ∧
  remote after.2 = remote w ∧
  database after.2 = patched.2.
Proof.
  intros Hdoc patched after. unfold after. run_manager. rewrite Hdoc. fold patched.
  by destruct patched as [[newdoc err] db'].
Qed.

End MoreProperties.

(** *** Container image references *)

(** X6.  Each image function is injective in the registry name, and the three
    never produce the same reference, whatever registries they are given. *)
Theorem image_references_distinct (acr acr' : string) :
  (version.FluentbitImage acr = version.FluentbitImage acr' → acr = acr') ∧
  (version.MdmImage acr = version.MdmImage acr' → acr = acr') ∧
  (version.MdsdImage acr = version.MdsdImage acr' → acr = acr') ∧
  version.FluentbitImage acr ≠ version.MdmImage acr' ∧
  version.FluentbitImage acr ≠ version.MdsdImage acr' ∧
  version.MdmImage acr ≠ version.MdsdImage acr'.
Proof.
  unfold version.FluentbitImage, version.MdmImage, version.MdsdImage.
  split_and!.
  - by intros [? _]%string_app_inj_right.
  - by intros [? _]%string_app_inj_right.
  - by intros [? _]%string_app_inj_right.
  - intros Heq%(f_equal (λ s, rev (list_ascii_of_string s))).
    rewrite !rev_string_app in Heq. simpl in Heq. congruence.
  - intros Heq%(f_equal (λ s, rev (list_ascii_of_string s))).
    rewrite !rev_string_app in Heq. simpl in Heq. congruence.
  - intros Heq%(f_equal (λ s, rev (list_ascii_of_string s))).
    rewrite !rev_string_app in Heq. simpl in Heq. congruence.
Qed.

(** ** The claims on the sample platform *)

#[local] Existing Instances Sample.runtime Sample.methods Sample.services.

(** Lookup identifier ["foo"], document entry keyed ["Foo"]: the entry is
    matched and updated, and the key is still exactly ["Foo"]. *)
Example mutate_Foo_foo :
  clusterIdentityIDs_mutate Sample.foo "new-client" "new-object" Sample.keyed_Foo
  = (Sample.document {[ "Foo" := Sample.fresh ]}, None).
Proof. vm_compute. reflexivity. Qed.

(** Two keys that fold to the identifier: the loop returns at the first one it
    meets and the other entry keeps its old value. *)
Example mutate_Foo_FOO_foo :
  clusterIdentityIDs_mutate Sample.foo "new-client" "new-object" Sample.keyed_Foo_FOO
  = (Sample.document {[ "Foo" := Sample.fresh; "FOO" := Sample.stale ]}, None).
Proof. vm_compute. reflexivity. Qed.


Lemma mutate_changes_one_entry_only_witness :
  ∃ d' k,
    clusterIdentityIDs_mutate Sample.foo "new-client" "new-object" Sample.keyed_Foo_FOO
      = (d', None) ∧
    dom (api.identities d') = dom (api.identities Sample.keyed_Foo_FOO) ∧
    (∀ k', k' ≠ k → api.identities d' !! k' = api.identities Sample.keyed_Foo_FOO !! k') ∧
    api.ID d' = "doc-1" ∧
    api.TenantID (api.Identity (api.doc_OpenShiftCluster d')) = "tenant-1".
Proof.
  destruct (mutate_changes_one_entry_only
              Sample.foo "new-client" "new-object" Sample.keyed_Foo_FOO "FOO" Sample.stale)
    as (d' & k & Hrun & _ & Hdom & Hothers & _ & HID & _ & _ & _ & _ & Htenant & _).
  - vm_compute. reflexivity.
  - reflexivity.
  - exists d', k. split_and!; [exact Hrun | exact Hdom | exact Hothers | exact HID | exact Htenant].
Defined.

Lemma no_match_aborts_patch_witness :
  let db := database (Sample.world (Sample.cloud None) Sample.keyed_Bar) in
  let mutate := clusterIdentityIDs_mutate Sample.foo "new-client" "new-object" in
  Database.PatchWithLease interim "key-1" mutate db
  = ((None, Some (fmt_Errorf "no entries found matching clusterMsiResourceId")), db).
Proof.
  refine (proj1 (proj2 (no_match_aborts_patch
             Sample.foo "new-client" "new-object"
             (database (Sample.world (Sample.cloud None) Sample.keyed_Bar)) "key-1"
             {| Database.version := 7; Database.content := Sample.keyed_Bar |} _ _ _))).
  - vm_compute. reflexivity.
  - apply not_elem_of_empty.
  - intros k v Hk.
    change (api.identities _) with ({[ "Bar" := Sample.stale ]} : gmap _ _) in Hk.
    apply lookup_singleton_Some in Hk as [<- _]. reflexivity.
Defined.

Lemma ensure_existing_secret_is_noop_witness :
  let m := Sample.mgr Sample.keyed_Foo false in
  let w := Sample.world (Sample.stocked (Sample.cloud Sample.populated)) Sample.keyed_Foo in
  (ensureClusterMsiCertificate m w).1 = (Returned None, m) ∧
  calls (ensureClusterMsiCertificate m w).2 = [call_GetCredentialsObject "doc-1-Foo"].
Proof.
  intros m w.
  destruct (ensure_existing_secret_is_noop m w Sample.keyed_Foo Sample.Foo
              (dataplane.CredentialsObject (Sample.credentials Sample.populated))
              (Sample.stocked (Sample.cloud Sample.populated)))
    as (Hrun & Hcalls & _).
  - reflexivity.
  - vm_compute. reflexivity.
  - vm_compute. reflexivity.
  - rewrite Hrun. split; [reflexivity | exact Hcalls].
Defined.

Lemma ensure_lookup_error_dispatch_witness :
  let m := Sample.mgr Sample.keyed_Foo false in
  let down := ForeignError "net" "connection reset" in
  let w := Sample.world (Sample.unreachable down (Sample.cloud Sample.populated)) Sample.keyed_Foo in
  (ensureClusterMsiCertificate m w).1 = (Returned (Some down), m) ∧
  calls (ensureClusterMsiCertificate m w).2 = [call_GetCredentialsObject "doc-1-Foo"].
Proof.
  intros m down w.
  destruct (ensure_lookup_error_dispatch m w Sample.keyed_Foo Sample.Foo down
              (Sample.unreachable down (Sample.cloud Sample.populated)))
    as [Hfatal _].
  - reflexivity.
  - vm_compute. reflexivity.
  - vm_compute. reflexivity.
  - destruct Hfatal as (Hrun & _ & _); [done|].
    rewrite Hrun. split; reflexivity.
Defined.

Lemma ensure_mock_creation_witness :
  let m := Sample.mgr Sample.keyed_Foo true in
  let w := Sample.world (Sample.cloud None) Sample.keyed_Foo in
  ∃ properties payload result w',
    ensureClusterMsiCertificate m w = (Returned result, m, w') ∧
    writes w' = [call_SetCredentialsObject properties payload] ∧
    store.NotBefore properties = 1700000000 ∧
    store.Expires properties = 1700000000 + 90 * 86400.
Proof.
  intros m w.
  destruct (ensure_mock_creation m w Sample.keyed_Foo Sample.Foo "SecretNotFound"
              (Sample.cloud None) (Sample.credentials None) (Sample.cloud None))
    as (properties & payload & result & w' & Hrun & _ & _ & Hwrites & Hnow & Hexpires & _).
  - reflexivity.
  - vm_compute. reflexivity.
  - vm_compute. reflexivity.
  - reflexivity.
  - reflexivity.
  - exists properties, payload, result, w'.
    split_and!; [exact Hrun | exact Hwrites | exact Hnow |].
    rewrite Hexpires, Hnow. vm_compute. reflexivity.
Defined.

Lemma ensure_real_creation_witness :
  let m := Sample.mgr Sample.keyed_Foo false in
  let w := Sample.world (Sample.cloud Sample.populated) Sample.keyed_Foo in
  ∃ properties result w',
    ensureClusterMsiCertificate m w = (Returned result, m, w') ∧
    writes w' =
      [call_SetCredentialsObject properties
         (dataplane.CredentialsObject (Sample.credentials Sample.populated))] ∧
    store.Expires properties = 1893456000.
Proof.
  intros m w.
  destruct (ensure_real_creation m w Sample.keyed_Foo Sample.Foo "SecretNotFound"
              (Sample.cloud Sample.populated) (Sample.credentials Sample.populated) (Sample.cloud Sample.populated)
              (Sample.nested (Some "2030-01-01T00:00:00Z")))
    as (Hparsed & _ & _).
  - reflexivity.
  - vm_compute. reflexivity.
  - vm_compute. reflexivity.
  - reflexivity.
  - reflexivity.
  - reflexivity.
  - destruct (Hparsed "2030-01-01T00:00:00Z" 1893456000)
      as (properties & result & w' & Hrun & Hwrites & Hexpires & _).
    + reflexivity.
    + vm_compute. reflexivity.
    + exists properties, result, w'. split_and!; [exact Hrun | exact Hwrites | exact Hexpires].
Defined.

Lemma ensure_mock_ignores_explicit_identities_witness :
  let m := Sample.mgr Sample.keyed_Foo true in
  let w := Sample.world (Sample.cloud (Some [])) Sample.keyed_Foo in
  getSingleExplicitIdentity (Sample.credentials (Some []))
    = inl errClusterMsiNotPresentInResponse ∧
  (ensureClusterMsiCertificate m w).1 = (Returned None, m) ∧
  last (calls (ensureClusterMsiCertificate m w).2) =
    Some (call_SetCredentialsObject
            {| store.Enabled := true; store.Expires := 1707776000;
               store.Name := "doc-1-Foo"; store.NotBefore := 1700000000 |}
            (dataplane.CredentialsObject (Sample.credentials (Some [])))).
Proof.
  intros m w.
  destruct (ensure_mock_ignores_explicit_identities m w Sample.keyed_Foo Sample.Foo
              "SecretNotFound" (Sample.cloud (Some [])) (Sample.credentials (Some []))
              (Sample.cloud (Some [])))
    as (_ & Hrun & Hlast & _).
  - reflexivity.
  - vm_compute. reflexivity.
  - vm_compute. reflexivity.
  - reflexivity.
  - reflexivity.
  - split_and!; [reflexivity | exact Hrun | ].
    rewrite Hlast. reflexivity.
Defined.

Lemma clusterIdentityIDs_requires_workload_identity_witness :
  let m := Sample.mgr Sample.csp_document false in
  let w := Sample.world (Sample.cloud Sample.populated) Sample.csp_document in
  clusterIdentityIDs m w =
    (Returned (Some (fmt_Errorf "clusterIdentityIDs called for CSP cluster")), m, w).
Proof.
  intros m w.
  apply (clusterIdentityIDs_requires_workload_identity m w Sample.csp_document).
  - reflexivity.
  - vm_compute. reflexivity.
Defined.

(** Calling [ensureClusterMsiCertificate] a second time, once the first call
    has stored the secret: the second call only looks the secret up. *)
Example ensure_twice_writes_once :
  let m := Sample.mgr Sample.keyed_Foo false in
  let w := Sample.world (Sample.cloud Sample.populated) Sample.keyed_Foo in
  let first := ensureClusterMsiCertificate m w in
  let second := ensureClusterMsiCertificate first.1.2 first.2 in
  first.1.1 = Returned None ∧ second.1.1 = Returned None ∧
  List.length (writes first.2) = 1%nat ∧
  writes second.2 = writes first.2 ∧
  fetches second.2 = fetches first.2.
Proof. intros m w first second. split_and!; reflexivity. Qed.

(** [clusterIdentityIDs] from end to end.  The stored document is keyed
    ["FOO"] while the manager's copy, from which the identifier is taken, is
    keyed ["Foo"]: the stored entry is updated under ["FOO"]. *)
Example clusterIdentityIDs_updates_stored_entry :
  let m := Sample.mgr Sample.keyed_Foo false in
  let stored := Sample.document {[ "FOO" := Sample.stale ]} in
  let w := Sample.world (Sample.cloud Sample.populated) stored in
  let after := clusterIdentityIDs m w in
  after.1.1 = Returned None ∧
  doc after.1.2 = Some (Sample.document {[ "FOO" := Sample.fresh ]}) ∧
  Database.documents (database after.2) !! "key-1" =
    Some {| Database.version := 8;
            Database.content := Sample.document {[ "FOO" := Sample.fresh ]} |}.
Proof. intros m stored w after. split_and!; vm_compute; reflexivity. Qed.

(** With no matching key in the stored document the call fails and the
    database is what it was. *)
Example clusterIdentityIDs_no_match :
  let m := Sample.mgr Sample.keyed_Foo false in
  let w := Sample.world (Sample.cloud Sample.populated) Sample.keyed_Bar in
  let after := clusterIdentityIDs m w in
  after.1.1 = Returned (Some (fmt_Errorf "no entries found matching clusterMsiResourceId")) ∧
  database after.2 = database w.
Proof. intros m w after. split_and!; vm_compute; reflexivity. Qed.

(** ** The further properties on the sample platform *)

#[local] Existing Instance SampleClients.libraries.

(** Without the equal-length condition two different pairs of document ID and
    MSI name can share a secret name. *)
Example secret_names_can_collide :
  "a-b" ++ "-" ++ "c" = "a" ++ "-" ++ "b-c" ∧ "a-b" ≠ "a".
Proof. by split. Qed.

Lemma mutate_unique_match_witness :
  clusterIdentityIDs_mutate Sample.foo "new-client" "new-object" Sample.keyed_Foo =
    (api.set_identities (<["Foo" := Sample.fresh]> (api.identities Sample.keyed_Foo))
       Sample.keyed_Foo, None).
Proof.
  apply (mutate_unique_match Sample.foo "new-client" "new-object" Sample.keyed_Foo
           "Foo" Sample.stale).
  - vm_compute. reflexivity.
  - reflexivity.
  - intros k Hk _.
    change (api.identities Sample.keyed_Foo) with ({[ "Foo" := Sample.stale ]} : gmap _ _) in Hk.
    rewrite dom_singleton_L in Hk. by apply elem_of_singleton in Hk.
Defined.

Lemma mutate_idempotent_witness :
  clusterIdentityIDs_mutate Sample.foo "new-client" "new-object"
    (clusterIdentityIDs_mutate Sample.foo "new-client" "new-object" Sample.keyed_Foo).1
  = ((clusterIdentityIDs_mutate Sample.foo "new-client" "new-object" Sample.keyed_Foo).1,
     None).
Proof.
  apply (mutate_idempotent Sample.foo "new-client" "new-object" Sample.keyed_Foo
           "Foo" Sample.stale).
  - vm_compute. reflexivity.
  - reflexivity.
  - intros k Hk _.
    change (api.identities Sample.keyed_Foo) with ({[ "Foo" := Sample.stale ]} : gmap _ _) in Hk.
    rewrite dom_singleton_L in Hk. by apply elem_of_singleton in Hk.
Defined.

Lemma ensure_nil_means_secret_present_witness :
  ∃ name,
    clusterMsiSecretName (Sample.mgr Sample.keyed_Foo false)
      (Sample.world (Sample.cloud Sample.populated) Sample.keyed_Foo)
    = (Returned (inr name), Sample.mgr Sample.keyed_Foo false,
       Sample.world (Sample.cloud Sample.populated) Sample.keyed_Foo).
Proof.
  destruct (ensure_nil_means_secret_present (Sample.mgr Sample.keyed_Foo false)
              (Sample.world (Sample.cloud Sample.populated) Sample.keyed_Foo))
    as (name & Hname & _).
  - reflexivity.
  - exists name. exact Hname.
Defined.

Lemma resource_id_error_stops_every_method_witness :
  ensureClusterMsiCertificate (Sample.mgr SampleClients.keyed_nothing false)
    (Sample.world (Sample.cloud Sample.populated) SampleClients.keyed_nothing)
  = (Returned (Some Sample.errMissingIdentityParameter),
     Sample.mgr SampleClients.keyed_nothing false,
     Sample.world (Sample.cloud Sample.populated) SampleClients.keyed_nothing).
Proof.
  refine (proj1 (proj2 (resource_id_error_stops_every_method
            (Sample.mgr SampleClients.keyed_nothing false)
            (Sample.world (Sample.cloud Sample.populated) SampleClients.keyed_nothing)
            SampleClients.keyed_nothing Sample.errMissingIdentityParameter
            SampleClients.unset SampleClients.subscriptionDoc _ _))).
  - reflexivity.
  - vm_compute. reflexivity.
Defined.

Lemma ensure_fetch_error_witness :
  (ensureClusterMsiCertificate (Svc := SampleClients.offline)
     (Sample.mgr Sample.keyed_Foo false)
     (SampleClients.offline_world (Sample.cloud None) Sample.keyed_Foo)).1
  = (Returned (Some SampleClients.errOffline), Sample.mgr Sample.keyed_Foo false).
Proof.
  destruct (ensure_fetch_error (Svc := SampleClients.offline)
              (Sample.mgr Sample.keyed_Foo false)
              (SampleClients.offline_world (Sample.cloud None) Sample.keyed_Foo)
              Sample.keyed_Foo Sample.Foo "SecretNotFound" (Sample.cloud None)
              SampleClients.errOffline (Sample.cloud None))
    as [Hrun _].
  - reflexivity.
  - vm_compute. reflexivity.
  - vm_compute. reflexivity.
  - reflexivity.
  - rewrite Hrun. reflexivity.
Defined.

Lemma ensure_real_mode_without_identity_witness :
  (ensureClusterMsiCertificate (Sample.mgr Sample.keyed_Foo false)
     (Sample.world (Sample.cloud (Some [])) Sample.keyed_Foo)).1
  = (Returned (Some errClusterMsiNotPresentInResponse), Sample.mgr Sample.keyed_Foo false).
Proof.
  destruct (ensure_real_mode_without_identity (Sample.mgr Sample.keyed_Foo false)
              (Sample.world (Sample.cloud (Some [])) Sample.keyed_Foo)
              Sample.keyed_Foo Sample.Foo "SecretNotFound" (Sample.cloud (Some []))
              (Sample.credentials (Some [])) (Sample.cloud (Some []))
              errClusterMsiNotPresentInResponse)
    as (_ & Hrun & _).
  - reflexivity.
  - vm_compute. reflexivity.
  - vm_compute. reflexivity.
  - reflexivity.
  - reflexivity.
  - reflexivity.
  - exact Hrun.
Defined.

Lemma clusterIdentityIDs_fetch_error_witness :
  (clusterIdentityIDs (Svc := SampleClients.offline)
     (Sample.mgr Sample.keyed_Foo false)
     (SampleClients.offline_world (Sample.cloud None) Sample.keyed_Foo)).1
  = (Returned (Some SampleClients.errOffline), Sample.mgr Sample.keyed_Foo false).
Proof.
  rewrite (clusterIdentityIDs_fetch_error (Svc := SampleClients.offline)
             (Sample.mgr Sample.keyed_Foo false)
             (SampleClients.offline_world (Sample.cloud None) Sample.keyed_Foo)
             Sample.keyed_Foo Sample.Foo SampleClients.errOffline (Sample.cloud None)).
  - reflexivity.
  - reflexivity.
  - vm_compute. reflexivity.
  - vm_compute. reflexivity.
  - reflexivity.
Defined.

Lemma clusterIdentityIDs_incomplete_identity_witness :
  (clusterIdentityIDs (Sample.mgr Sample.keyed_Foo false)
     (Sample.world (Sample.cloud SampleClients.incomplete) Sample.keyed_Foo)).1
  = (Returned (Some (fmt_Errorf
       "unable to pull clientID and objectID from the MSI CredentialsObject")),
     Sample.mgr Sample.keyed_Foo false).
Proof.
  destruct (clusterIdentityIDs_incomplete_identity (Sample.mgr Sample.keyed_Foo false)
              (Sample.world (Sample.cloud SampleClients.incomplete) Sample.keyed_Foo)
              Sample.keyed_Foo Sample.Foo (Sample.credentials SampleClients.incomplete)
              (Sample.cloud SampleClients.incomplete))
    as [_ Hincomplete].
  - reflexivity.
  - vm_compute. reflexivity.
  - vm_compute. reflexivity.
  - reflexivity.
  - rewrite (Hincomplete _ eq_refl); [reflexivity | by right].
Defined.

Lemma clusterIdentityIDs_run_witness :
  (clusterIdentityIDs (Sample.mgr Sample.keyed_Foo false)
     (Sample.world (Sample.cloud Sample.populated) Sample.keyed_Foo)).1.1
  = Returned None.
Proof.
  rewrite (clusterIdentityIDs_run (Sample.mgr Sample.keyed_Foo false)
             (Sample.world (Sample.cloud Sample.populated) Sample.keyed_Foo)
             Sample.keyed_Foo Sample.Foo (Sample.credentials Sample.populated)
             (Sample.cloud Sample.populated)
             (Sample.nested (Some "2030-01-01T00:00:00Z")) "new-client" "new-object").
  - vm_compute. reflexivity.
  - reflexivity.
  - vm_compute. reflexivity.
  - vm_compute. reflexivity.
  - reflexivity.
  - reflexivity.
  - reflexivity.
  - reflexivity.
Defined.

Lemma initialize_lookup_error_witness :
  (initializeClusterMsiClients SampleClients.unset SampleClients.subscriptionDoc
     (Sample.mgr Sample.keyed_Foo false)
     (Sample.world (Sample.cloud Sample.populated) Sample.keyed_Foo)).1.1
  = Returned (Some (ResponseError 404 "SecretNotFound"), SampleClients.unset).
Proof.
  rewrite (initialize_lookup_error SampleClients.unset SampleClients.subscriptionDoc
             (Sample.mgr Sample.keyed_Foo false)
             (Sample.world (Sample.cloud Sample.populated) Sample.keyed_Foo)
             Sample.keyed_Foo Sample.Foo (ResponseError 404 "SecretNotFound")
             (Sample.cloud Sample.populated)).
  - reflexivity.
  - reflexivity.
  - vm_compute. reflexivity.
  - vm_compute. reflexivity.
Defined.

Lemma initialize_success_witness :
  ∃ credential federated assigned,
    NewFederatedIdentityCredentialsClient "sub-1" credential "https://management.azure.com"
      = inr federated ∧
    NewUserAssignedIdentitiesClient "sub-1" credential "https://management.azure.com"
      = inr assigned ∧
    SampleClients.client_credential federated = "new-client@Foo" ∧
    SampleClients.client_credential assigned = "new-client@Foo".
Proof.
  destruct (initialize_success SampleClients.unset SampleClients.subscriptionDoc
              (Sample.mgr Sample.keyed_Foo false)
              (Sample.world (Sample.stocked (Sample.cloud Sample.populated)) Sample.keyed_Foo)
              SampleClients.ready)
    as (d & rid & payload & r & cloud & identities & credential & federated & assigned
        & _ & _ & _ & _ & _ & _ & Hfederated & Hassigned & Hnow).
  - reflexivity.
  - exists credential, federated, assigned.
    injection Hnow as <- <-. split_and!; [exact Hfederated | exact Hassigned | done | done].
Defined.

Lemma secret_name_injective_witness :
  api.ID Sample.keyed_Foo = api.ID (Sample.document {[ "id/Foo" := Sample.stale ]}).
Proof.
  refine (proj1 (secret_name_injective
            (Sample.mgr Sample.keyed_Foo false)
            (Sample.world (Sample.cloud None) Sample.keyed_Foo) Sample.keyed_Foo
            (Sample.mgr (Sample.document {[ "id/Foo" := Sample.stale ]}) true)
            (Sample.world (Sample.cloud None) Sample.keyed_Bar)
            (Sample.document {[ "id/Foo" := Sample.stale ]}) "doc-1-Foo" _ _ _ _ _)).
  - reflexivity.
  - reflexivity.
  - reflexivity.
  - vm_compute. reflexivity.
  - vm_compute. reflexivity.
Defined.

Lemma fixup_only_patches_witness :
  (fixupClusterMsiTenantID SampleClients.subscriptionDoc
     (Sample.mgr Sample.keyed_Foo false)
     (Sample.world (Sample.cloud None) Sample.keyed_Foo)).1.1 = Returned None.
Proof.
  destruct (fixup_only_patches SampleClients.subscriptionDoc
              (Sample.mgr Sample.keyed_Foo false)
              (Sample.world (Sample.cloud None) Sample.keyed_Foo) Sample.keyed_Foo)
    as (Hresult & _).
  - reflexivity.
  - rewrite Hresult. vm_compute. reflexivity.
Defined.
